(** * Todo CRUD flow: REST facade, action dispatcher, page state and toasts

    A shallow embedding of
      - [src/workers/app.ts]               (the REST facade over the KV store,
                                            its routes and the mock data),
      - [src/app/routes/todos.tsx]         (the route [loader], [action],
                                            [shouldRevalidate] and [TodosPage]),
      - [src/app/context/toast-context.tsx] and the [GlobalToast] component
    followed by the properties of the specification that concern them.

    Conventions of the embedding.
      - A JavaScript string is a [string]; a character is one code unit.
      - A JSON number is an integer ([Z]); no property below depends on a
        numeric JSON value.
      - The KV namespace is a finite map from keys to the JSON value that
        [get(key, "json")] parses out of the stored text; the KV calls
        themselves do not throw.
      - An id written into a path ([`/api/todos/${id}`]) reaches the route
        [/:id] as it is when it is made of letters, digits, hyphens and
        underscores; for any other id the environment says where the path
        leads.
      - Readings of the environment ([new Date()], [Date.now()],
        [crypto.randomUUID()], [Math.random()]) are explicit arguments.
      - A closure stored in a toast is a constructor that names the handler
        it calls, interpreted by the page. *)

From Stdlib Require Import ZArith String Ascii Bool Lia.
From stdpp Require Import gmap strings list fin_maps pretty.

Set Warnings "-register-all".
Open Scope Z_scope.
Open Scope string_scope.

(** ** JSON values and the JavaScript operations applied to them *)
Module Json.

Inductive json : Type :=
  | JNull
  | JBool (b : bool)
  | JNum (n : Z)
  | JStr (s : string)
  | JArr (l : list json)
  | JObj (m : gmap string json).

(** [!!v] of JavaScript: the falsy JSON values are [null], [false], [0]
    and the empty string. *)
Definition truthy (v : json) : bool :=
  match v with
  | JNull => false
  | JBool b => b
  | JNum n => negb (Z.eqb n 0)
  | JStr s => negb (String.eqb s EmptyString)
  | JArr _ => true
  | JObj _ => true
  end.

(** The characters of a string as one-character strings. *)
Fixpoint chars (s : string) : list json :=
  match s with
  | EmptyString => []
  | String c s' => JStr (String c EmptyString) :: chars s'
  end.

(** Keys ["0"], ["1"], ... for the elements of an array-like value. *)
Definition indexed (l : list json) : gmap string json :=
  list_to_map (imap (fun (i : nat) (x : json) => (pretty i, x)) l).

(** The own enumerable properties copied by an object spread [{...v}]:
    those of an object, the indices of an array or of a string, and nothing
    for [null], a boolean or a number. *)
Definition own_props (v : json) : gmap string json :=
  match v with
  | JObj m => m
  | JArr l => indexed l
  | JStr s => indexed (chars s)
  | JNull | JBool _ | JNum _ => ∅
  end.

(** Property access [v.k] for the keys the page reads ([id], [title], the
    time stamps) on a parsed JSON value; [None] is [undefined], which is also
    what a boolean, a number, a string or an array gives for these keys.
    (On [null] JavaScript throws; the facade never answers a success with
    [null].) *)
Definition prop (k : string) (v : json) : option json :=
  match v with
  | JObj m => m !! k
  | _ => None
  end.

(** [a === b] on two property reads of distinct parsed values: primitives
    compare by value, [undefined] equals only itself, and two objects or
    arrays that come from different parses are never identical. *)
Definition strict_eq (a b : option json) : bool :=
  match a, b with
  | None, None => true
  | Some JNull, Some JNull => true
  | Some (JBool x), Some (JBool y) => Bool.eqb x y
  | Some (JNum x), Some (JNum y) => Z.eqb x y
  | Some (JStr x), Some (JStr y) => String.eqb x y
  | _, _ => false
  end.

(** The string a template literal [`${v}`] produces ([None] is [undefined]). *)
Fixpoint to_string (v : json) : string :=
  match v with
  | JNull => "null"
  | JBool true => "true"
  | JBool false => "false"
  | JNum n => pretty n
  | JStr s => s
  | JArr l =>
      String.concat ","
        (map (fun x => match x with JNull => EmptyString | _ => to_string x end) l)
  | JObj _ => "[object Object]"
  end.

Definition template (v : option json) : string :=
  match v with
  | None => "undefined"
  | Some x => to_string x
  end.

End Json.
Import Json.

(** ** The REST facade: [src/workers/app.ts] *)
Module Facade.

(** What the handlers put in a [Response]: [statusText] is empty for the
    responses [c.json] builds; [body] is [None] when the text of the body is
    not JSON, and [jsonError] is then the message of the [SyntaxError] that
    [response.json()] throws for that text, which is the engine's. *)
Record Response : Type := mkResponse {
  status : Z;
  statusText : string;
  body : option json;
  jsonError : string
}.

(** [c.json(value, status)] *)
Definition c_json (value : json) (st : Z) : Response :=
  {| status := st; statusText := EmptyString; body := Some value;
     jsonError := EmptyString |}.

Definition error_body (msg : string) : json :=
  JObj {[ "error" := JStr msg ]}.

(** [c.env.TODOS_KV.get(id, "json")]: [null] for a missing key. *)
Definition kv_get (kv : gmap string json) (id : string) : json :=
  default JNull (kv !! id).

(** [todos.post("/")].  [body] is [None] when [c.req.json()] throws; [uuid] is
    [crypto.randomUUID()] and [now] is [new Date().toISOString()]. *)
Definition todos_post (uuid now : string) (body : option json)
    (kv : gmap string json) : gmap string json * Response :=
  match body with
  | None => (kv, c_json (error_body "Failed to create TODO") 500)
  | Some todo =>
      let newTodo :=
        <["createdAt" := JStr now]>
          (<["completed" := JBool false]>
             (<["id" := JStr uuid]> (own_props todo))) in
      (<[uuid := JObj newTodo]> kv, c_json (JObj newTodo) 201)
  end.

(** The object [{ ...existing, ...updates, updatedAt: now }]. *)
Definition merge_update (now : string) (existing updates : json)
    : gmap string json :=
  <["updatedAt" := JStr now]> (own_props updates ∪ own_props existing).

(** [todos.put("/:id")] *)
Definition todos_put (now id : string) (body : option json)
    (kv : gmap string json) : gmap string json * Response :=
  match body with
  | None => (kv, c_json (error_body "Failed to update TODO") 500)
  | Some updates =>
      let existing := kv_get kv id in
      if negb (truthy existing) then
        (kv, c_json (error_body "TODO not found") 404)
      else
        let updatedTodo := merge_update now existing updates in
        (<[id := JObj updatedTodo]> kv, c_json (JObj updatedTodo) 200)
  end.

(** [todos.delete("/:id")] *)
Definition todos_delete (id : string) (kv : gmap string json)
    : gmap string json * Response :=
  (delete id kv, c_json (JObj {[ "success" := JBool true ]}) 200).

(** The mutating requests of the HTTP surface: POST on [/api/todos], and PUT
    and DELETE on [`/api/todos/${id}`]. *)
Inductive ApiRequest : Type :=
  | PostTodos (body : option json)
  | PutTodo (id : string) (body : option json)
  | DeleteTodo (id : string).

(** [app.route("/api/todos", todos)] for one request, [id] being the
    parameter of [/:id]. *)
Definition route (uuid now : string) (req : ApiRequest)
    (kv : gmap string json) : gmap string json * Response :=
  match req with
  | PostTodos b => todos_post uuid now b kv
  | PutTodo id b => todos_put now id b kv
  | DeleteTodo id => todos_delete id kv
  end.

(** The store holds records: every stored value is a JSON object. *)
Definition store_records (kv : gmap string json) : Prop :=
  map_Forall (fun _ v => exists m, v = JObj m) kv.

End Facade.
Import Facade.

(** ** The listing of the facade *)
Module Listing.

(** One entry of the listing: [value ? { ...value, id: key.name } : null],
    where [null] entries are dropped by [filter(Boolean)]. *)
Definition list_item (kv : gmap string json) (key : string) : option json :=
  let value := kv_get kv key in
  if truthy value then Some (JObj (<["id" := JStr key]> (own_props value)))
  else None.

(** [todos.get("/")]; [keys] are the names [TODOS_KV.list()] returns, in its
    order. *)
Definition todos_get (keys : list string) (kv : gmap string json)
    : Response :=
  c_json (JArr (omap (list_item kv) keys)) 200.

(** The items of a listing response. *)
Definition items (r : Response) : list json :=
  match body r with
  | Some (JArr l) => l
  | _ => []
  end.

(** [keys] names every key of the store once. *)
Definition lists_store (keys : list string) (kv : gmap string json) : Prop :=
  NoDup keys /\ forall k, k ∈ keys <-> is_Some (kv !! k).

End Listing.
Import Listing.

(** ** Paths: [createFetchInternal] and the routes of the worker

    [createFetchInternal] makes a URL of the path it is given and hands the
    request to the routes of the worker.  The dispatcher writes the id of a
    todo into the path as it is, without encoding it. *)
Module Router.

(** The characters a URL keeps as they are and no route reads: letters,
    digits, the hyphen and the underscore. *)
Definition plain_char (c : ascii) : bool :=
  let n := nat_of_ascii c in
  (Nat.leb 97 n && Nat.leb n 122)
  || (Nat.leb 65 n && Nat.leb n 90)
  || (Nat.leb 48 n && Nat.leb n 57)
  || Nat.eqb n 45
  || Nat.eqb n 95.

Fixpoint all_plain (s : string) : bool :=
  match s with
  | EmptyString => true
  | String c s' => plain_char c && all_plain s'
  end.

(** An id that makes one segment of a path, read back as it was written: the
    path [`/api/todos/${id}`] then matches [/:id] with the parameter [id].
    The ids [crypto.randomUUID()] gives are such. *)
Definition plain_segment (id : string) : bool :=
  negb (String.eqb id EmptyString) && all_plain id.

(** Where a path [`/api/todos/${id}`] leads for a PUT or a DELETE: to the
    handler of [/:id] with a parameter (the segment, decoded), or to no route
    of the todos, in which case the request is answered by the route that
    takes it ([app.all("*")]) and the store is left alone. *)
Inductive Target : Type :=
  | Param (id : string)
  | NoRoute (r : Response).

End Router.
Import Router.

(** ** The action dispatcher: [action] of [src/app/routes/todos.tsx] *)
Module Dispatcher.

(** A thrown JavaScript value: an [Error] with its message, or anything else. *)
Inductive thrown : Type :=
  | ErrorObj (message : string)
  | NonError.

Inductive result (A : Type) : Type :=
  | Ok (a : A)
  | Throw (e : thrown).
Arguments Ok {A} a.
Arguments Throw {A} e.

(** Computations over a state [S] that may throw; the state reached when the
    exception is thrown is kept. *)
Definition M (S A : Type) : Type := S -> S * result A.

Definition ret {S A} (a : A) : M S A := fun s => (s, Ok a).

Definition throw {S A} (e : thrown) : M S A := fun s => (s, Throw e).

Definition bind {S A B} (c : M S A) (k : A -> M S B) : M S B :=
  fun s =>
    match c s with
    | (s1, Ok a) => k a s1
    | (s1, Throw e) => (s1, Throw e)
    end.

(** [try { c } catch (error) { h error }] *)
Definition try_catch {S A} (c : M S A) (h : thrown -> M S A) : M S A :=
  fun s =>
    match c s with
    | (s1, Ok a) => (s1, Ok a)
    | (s1, Throw e) => h e s1
    end.

Notation "'let*' x ':=' c 'in' k" := (bind c (fun x => k))
  (at level 10, x name, c at level 100, k at level 200).

(** The entries of a [FormData], in order; [get] gives the first value of a
    name, or [None] for JavaScript's [null]. *)
Definition FormData : Type := list (string * string).

Fixpoint fd_get (name : string) (fd : FormData) : option string :=
  match fd with
  | [] => None
  | (k, v) :: rest => if String.eqb k name then Some v else fd_get name rest
  end.

(** White space and line terminators of [String.prototype.trim] among the
    code units below 256: TAB, LF, VT, FF, CR, SPACE and NBSP. *)
Definition is_ws (c : ascii) : bool :=
  let n := nat_of_ascii c in
  (Nat.leb 9 n && Nat.leb n 13) || Nat.eqb n 32 || Nat.eqb n 160.

Fixpoint trimStart (s : string) : string :=
  match s with
  | EmptyString => EmptyString
  | String c s' => if is_ws c then trimStart s' else s
  end.

Definition trimEnd (s : string) : string :=
  String.rev (trimStart (String.rev s)).

Definition trim (s : string) : string := trimEnd (trimStart s).

(** The value the action resolves with, by its [intent] tag. *)
Inductive ActionData : Type :=
  | ActCreate (data : json)
  | ActUpdate (data : json)
  | ActDelete (id : string)
  | ActError (error : string).

(** [shouldRevalidate]: the results of the three intents carry
    [shouldRevalidate: false], the error result carries no such field. *)
Definition shouldRevalidate (actionResult : option ActionData)
    (defaultShouldRevalidate : bool) : bool :=
  match actionResult with
  | Some (ActCreate _) | Some (ActUpdate _) | Some (ActDelete _) => false
  | Some (ActError _) | None => defaultShouldRevalidate
  end.

(** [response.ok] *)
Definition ok (r : Response) : bool :=
  Z.leb 200 (status r) && Z.leb (status r) 299.

(** The message of the [SyntaxError] of a failed [response.json()]; its text
    is the engine's, for the body at hand. *)
Definition syntax_error (r : Response) : string := jsonError r.

(** [`Failed to ${verb} todo (Status: ${response.status} ${response.statusText})`] *)
Definition failed (verb : string) (r : Response) : thrown :=
  ErrorObj ("Failed to " ++ verb ++ " todo (Status: " ++ pretty (status r)
            ++ " " ++ statusText r ++ ")").

(** [error instanceof Error ? error.message : "An error occurred"] *)
Definition error_message (e : thrown) : string :=
  match e with
  | ErrorObj m => m
  | NonError => "An error occurred"
  end.

(** [JSON.stringify] leaves out a property whose value is [undefined]. *)
Definition set_defined (k : string) (v : option json) (m : gmap string json)
    : gmap string json :=
  match v with
  | Some x => <[k := x]> m
  | None => m
  end.

(** The body of the create request:
    [{ title, completed: false, createdAt: new Date().toISOString() }]. *)
Definition create_body (clientNow title : string) : gmap string json :=
  <["createdAt" := JStr clientNow]>
    (<["completed" := JBool false]> {[ "title" := JStr title ]}).

(** The body of the update request.  [title] is a string or [undefined],
    never [null], so the test [title !== null] holds and the property is
    always assigned; an [undefined] title does not reach the body. *)
Definition update_body (id : string) (title completed : option string)
    : gmap string json :=
  set_defined "completed"
    ((fun c => JBool (String.eqb c "true")) <$> completed)
    (set_defined "title" (JStr <$> title) {[ "id" := JStr id ]}).

Section Action.
Context {S : Type}.
(** [fetchApi]: one request to the REST facade, through
    [context.fetchInternal] or [fetch]; it may throw. *)
Variable fetchApi : ApiRequest -> M S Response.
(** [new Date().toISOString()] on the dispatcher's side. *)
Variable clientNow : string.

Definition response_json (r : Response) : M S json :=
  match body r with
  | Some v => ret v
  | None => throw (ErrorObj (syntax_error r))
  end.

Definition create_case (fd : FormData) : M S ActionData :=
  (* formData.get("title")?.toString().trim() *)
  match trim <$> fd_get "title" fd with
  | None => throw (ErrorObj "Title is required")
  | Some title =>
      if String.eqb title EmptyString then
        throw (ErrorObj "Title is required")
      else
        let newTodo : gmap string json :=
          <["createdAt" := JStr clientNow]>
            (<["completed" := JBool false]> {[ "title" := JStr title ]}) in
        let* response := fetchApi (PostTodos (Some (JObj newTodo))) in
        if negb (ok response) then throw (failed "create" response)
        else let* data := response_json response in ret (ActCreate data)
  end.

Definition update_case (fd : FormData) : M S ActionData :=
  let title := fd_get "title" fd in
  let completed := fd_get "completed" fd in
  match fd_get "id" fd with
  | None => throw (ErrorObj "Todo ID is required")
  | Some id =>
      if String.eqb id EmptyString then
        throw (ErrorObj "Todo ID is required")
      else
        (* [title] is a string or [undefined], so [title !== null] holds
           and the property is always assigned; an [undefined] title does
           not reach the body. *)
        let updates : gmap string json :=
          set_defined "completed"
            ((fun c => JBool (String.eqb c "true")) <$> completed)
            (set_defined "title" (JStr <$> title) {[ "id" := JStr id ]}) in
        let* response := fetchApi (PutTodo id (Some (JObj updates))) in
        if negb (ok response) then throw (failed "update" response)
        else
          try_catch
            (let* r := response_json response in ret (ActUpdate r))
            (fun _ => throw (ErrorObj "Invalid response from server"))
  end.

Definition delete_case (fd : FormData) : M S ActionData :=
  match fd_get "id" fd with
  | None => throw (ErrorObj "Todo ID is required")
  | Some id =>
      if String.eqb id EmptyString then
        throw (ErrorObj "Todo ID is required")
      else
        let* response := fetchApi (DeleteTodo id) in
        if negb (ok response) then throw (failed "delete" response)
        else ret (ActDelete id)
  end.

(** [switch (intent)] *)
Definition switch_intent (fd : FormData) : M S ActionData :=
  match fd_get "intent" fd with
  | None => throw (ErrorObj "Unknown intent: null")
  | Some intent =>
      if String.eqb intent "create" then create_case fd
      else if String.eqb intent "update" then update_case fd
      else if String.eqb intent "delete" then delete_case fd
      else throw (ErrorObj ("Unknown intent: " ++ intent))
  end.

(** [action], from the parsed form on: the whole [try]/[catch], which
    turns every thrown value into the error tag. *)
Definition action (fd : FormData) (s : S) : S * ActionData :=
  match switch_intent fd s with
  | (s1, Ok r) => (s1, r)
  | (s1, Throw e) => (s1, ActError (error_message e))
  end.

End Action.

End Dispatcher.
Import Dispatcher.

(** ** The notification layer: [src/app/context/toast-context.tsx] *)
Module Toast.

(** The two closures the page stores in a toast. *)
Inductive ClickHandler : Type :=
  | UndoDelete (id : string).      (* () => { handleUndoDelete(id); } *)

Inductive DismissHandler : Type :=
  | CommitDelete (id : string).    (* the [onDismiss] of [handleDeleteTodo] *)

Record Action : Type := mkAction {
  label : string;
  onClick : ClickHandler
}.

Record ToastMessage : Type := mkToast {
  id : string;
  title : string;
  description : option string;
  createdAt : Z;
  duration : option Z;
  action : option Action;
  onDismiss : option DismissHandler
}.

(** The argument of [addToast]:
    [Omit<ToastMessage, "id" | "createdAt"> & { id?: string }]. *)
Record ToastInit : Type := mkInit {
  init_id : option string;
  init_title : string;
  init_description : option string;
  init_duration : option Z;
  init_action : option Action;
  init_onDismiss : option DismissHandler
}.

(** [`toast-${Date.now()}-${Math.floor(Math.random() * 10000)}`] *)
Definition generated_id (now rnd : Z) : string :=
  "toast-" ++ pretty now ++ "-" ++ pretty rnd.

(** [toast.id || generated] *)
Definition id_or (o : option string) (generated : string) : string :=
  match o with
  | Some s => if String.eqb s EmptyString then generated else s
  | None => generated
  end.

(** [toast.duration || 5000] *)
Definition duration_or (o : option Z) (dflt : Z) : Z :=
  match o with
  | Some d => if Z.eqb d 0 then dflt else d
  | None => dflt
  end.

(** [addToast]; [now] is [Date.now()] and [rnd] is
    [Math.floor(Math.random() * 10000)]. *)
Definition addToast (now rnd : Z) (toast : ToastInit)
    (prev : list ToastMessage) : list ToastMessage :=
  let newToast :=
    {| id := id_or (init_id toast) (generated_id now rnd);
       title := init_title toast;
       description := init_description toast;
       createdAt := now;
       duration := Some (duration_or (init_duration toast) 5000);
       action := init_action toast;
       onDismiss := init_onDismiss toast |} in
  (prev ++ [newToast])%list.

(** [removeToast] and [removeToastById] have the same body. *)
Definition removeToast (i : string) (currentToasts : list ToastMessage)
    : list ToastMessage :=
  List.filter (fun toast => negb (String.eqb (id toast) i)) currentToasts.

Definition removeToastById (i : string) (currentToasts : list ToastMessage)
    : list ToastMessage :=
  List.filter (fun toast => negb (String.eqb (id toast) i)) currentToasts.

End Toast.

(** ** The page: [TodosPage] of [src/app/routes/todos.tsx], with the
    [GlobalToast] component that closes its toasts *)
Module TodosPage.

(** The state of the component; the filter tab and its highlight are left
    out. *)
Record Page : Type := mkPage {
  todos : list json;
  newTodoTitle : string;
  editingTodoId : option string;
  editTodoTitle : string;
  deletingTodoId : option string;
  deletingTodoIdRef : option string;
  srAnnouncement : string
}.

(** The session and the store it talks to; [requests] records, in order,
    every request the action made, as the action made it. *)
Record World : Type := mkWorld {
  kv : gmap string json;
  page : Page;
  toasts : list Toast.ToastMessage;
  requests : list ApiRequest
}.

(** What one event reads from its environment. *)
Record Env : Type := mkEnv {
  uuid : string;        (* crypto.randomUUID() in the worker *)
  serverNow : string;   (* new Date().toISOString() in the worker *)
  clientNow : string;   (* new Date().toISOString() in the action *)
  dateNow : Z;          (* Date.now() in addToast *)
  random : Z;           (* Math.floor(Math.random() * 10000) *)
  listed : list string; (* the names TODOS_KV.list() gives the loader *)
  target : string -> Target
                        (* where the path of an id that is not plain leads *)
}.

Definition with_page (f : Page -> Page) (w : World) : World :=
  {| kv := kv w; page := f (page w); toasts := toasts w;
     requests := requests w |}.

Definition with_toasts (f : list Toast.ToastMessage -> list Toast.ToastMessage)
    (w : World) : World :=
  {| kv := kv w; page := page w; toasts := f (toasts w);
     requests := requests w |}.

Definition setTodos (f : list json -> list json) (p : Page) : Page :=
  {| todos := f (todos p); newTodoTitle := newTodoTitle p;
     editingTodoId := editingTodoId p; editTodoTitle := editTodoTitle p;
     deletingTodoId := deletingTodoId p;
     deletingTodoIdRef := deletingTodoIdRef p;
     srAnnouncement := srAnnouncement p |}.

Definition setNewTodoTitle (s : string) (p : Page) : Page :=
  {| todos := todos p; newTodoTitle := s;
     editingTodoId := editingTodoId p; editTodoTitle := editTodoTitle p;
     deletingTodoId := deletingTodoId p;
     deletingTodoIdRef := deletingTodoIdRef p;
     srAnnouncement := srAnnouncement p |}.

Definition setEditingTodoId (o : option string) (p : Page) : Page :=
  {| todos := todos p; newTodoTitle := newTodoTitle p;
     editingTodoId := o; editTodoTitle := editTodoTitle p;
     deletingTodoId := deletingTodoId p;
     deletingTodoIdRef := deletingTodoIdRef p;
     srAnnouncement := srAnnouncement p |}.

Definition setEditTodoTitle (s : string) (p : Page) : Page :=
  {| todos := todos p; newTodoTitle := newTodoTitle p;
     editingTodoId := editingTodoId p; editTodoTitle := s;
     deletingTodoId := deletingTodoId p;
     deletingTodoIdRef := deletingTodoIdRef p;
     srAnnouncement := srAnnouncement p |}.

(** [deletingTodoIdRef.current = o; setDeletingTodoId(o)] *)
Definition setDeleting (o : option string) (p : Page) : Page :=
  {| todos := todos p; newTodoTitle := newTodoTitle p;
     editingTodoId := editingTodoId p; editTodoTitle := editTodoTitle p;
     deletingTodoId := o;
     deletingTodoIdRef := o;
     srAnnouncement := srAnnouncement p |}.

Definition setSrAnnouncement (s : string) (p : Page) : Page :=
  {| todos := todos p; newTodoTitle := newTodoTitle p;
     editingTodoId := editingTodoId p; editTodoTitle := editTodoTitle p;
     deletingTodoId := deletingTodoId p;
     deletingTodoIdRef := deletingTodoIdRef p;
     srAnnouncement := s |}.

(** The quotation mark of the announcements. *)
Definition dq : string := String (ascii_of_nat 34) EmptyString.

(** The effect on [actionData], run when [navigation.state] is ["idle"]. *)
Definition actionEffect (e : Env) (actionData : ActionData) (w : World)
    : World :=
  match actionData with
  | ActError err =>
      with_page (setSrAnnouncement ("Error: " ++ err))
        (with_toasts
           (Toast.addToast (dateNow e) (random e)
              {| Toast.init_id := None;
                 Toast.init_title := "Error";
                 Toast.init_description := Some err;
                 Toast.init_duration := Some 3000;
                 Toast.init_action := None;
                 Toast.init_onDismiss := None |})
           w)
  | ActDelete id =>
      with_page
        (fun p =>
           setSrAnnouncement "Todo deleted"
             (setDeleting None
                (setTodos
                   (List.filter
                      (fun todo =>
                         negb (strict_eq (prop "id" todo) (Some (JStr id)))))
                   p)))
        w
  | ActUpdate updatedTodo =>
      with_page
        (fun p =>
           setSrAnnouncement
             ("Todo " ++ dq ++ template (prop "title" updatedTodo) ++ dq
              ++ " updated")
             (setEditingTodoId None
                (setTodos
                   (map
                      (fun todo =>
                         if strict_eq (prop "id" todo) (prop "id" updatedTodo)
                         then JObj (own_props updatedTodo ∪ own_props todo)
                         else todo))
                   p)))
        w
  | ActCreate data =>
      with_page
        (fun p =>
           setSrAnnouncement
             ("Todo " ++ dq ++ template (prop "title" data) ++ dq ++ " added")
             (setNewTodoTitle EmptyString
                (setTodos (fun prevTodos => (prevTodos ++ [data])%list) p)))
        w
  end.

(** The parameter of [/:id] for the path [`/api/todos/${id}`]. *)
Definition param_of (e : Env) (id : string) : Target :=
  if plain_segment id then Param id else target e id.

(** One request of the action, served by the routes of the worker: the
    handler it reaches runs on the store, and a request that reaches no
    handler of the todos leaves the store as it is. *)
Definition served (e : Env) (req : ApiRequest) (store : gmap string json)
    : gmap string json * Response :=
  match req with
  | PostTodos b => route (uuid e) (serverNow e) (PostTodos b) store
  | PutTodo id b =>
      match param_of e id with
      | Param p => route (uuid e) (serverNow e) (PutTodo p b) store
      | NoRoute r => (store, r)
      end
  | DeleteTodo id =>
      match param_of e id with
      | Param p => route (uuid e) (serverNow e) (DeleteTodo p) store
      | NoRoute r => (store, r)
      end
  end.

(** [context.fetchInternal] for the requests of the action: the request is
    recorded and served. *)
Definition fetchInternal (e : Env) (req : ApiRequest)
    : M (gmap string json * list ApiRequest) Response :=
  fun s =>
    let r := served e req (fst s) in
    ((fst r, (snd s ++ [req])%list), Ok (snd r)).

(** [loader]: the listing of the facade, through [context.fetchInternal]. *)
Definition loader (e : Env) (store : gmap string json) : result json :=
  let response := todos_get (listed e) store in
  if negb (ok response) then
    Throw (ErrorObj ("Failed to load todos (Status: "
                     ++ pretty (status response) ++ " "
                     ++ statusText response ++ ")"))
  else
    match body response with
    | Some data => Ok data
    | None => Throw (ErrorObj (syntax_error response))
    end.

(** A revalidation: the router runs the loader again and the effect on
    [initialTodos] hands the list it returned to the page.  The listing
    answers 200 with an array, so the loader does not throw here; if it did,
    the error boundary of the route would take the place of the page. *)
Definition revalidate (e : Env) (w : World) : World :=
  match loader e (kv w) with
  | Ok (JArr initialTodos) => with_page (setTodos (fun _ => initialTodos)) w
  | _ => w
  end.

(** [submit(formData, { method: "post", action: "/todos" })]: the action runs
    against the facade; the router then revalidates the loader unless
    [shouldRevalidate] says no, its default after an action being [true];
    and when the navigation is idle again the effects run in the order of
    the component, the one on [initialTodos] before the one on [actionData].
    A submission completes before the next event: the controls are disabled
    while [navigation.state] is not ["idle"]. *)
Definition submit (e : Env) (fd : FormData) (w : World) : World :=
  let r := action (fetchInternal e) (clientNow e) fd (kv w, requests w) in
  let w1 := {| kv := fst (fst r); page := page w; toasts := toasts w;
               requests := snd (fst r) |} in
  actionEffect e (snd r)
    (if shouldRevalidate (Some (snd r)) true then revalidate e w1 else w1).

(** A string or [null] tested as a condition. *)
Definition nonempty (o : option string) : bool :=
  match o with
  | Some s => negb (String.eqb s EmptyString)
  | None => false
  end.

Definition handleAddTodo (e : Env) (w : World) : World :=
  if String.eqb (trim (newTodoTitle (page w))) EmptyString then w
  else
    let title := trim (newTodoTitle (page w)) in
    submit e [("intent", "create"); ("title", title)]
      (with_page (setNewTodoTitle EmptyString) w).

Definition handleToggleComplete (id : string) (completed : bool) (e : Env)
    (w : World) : World :=
  let newCompleted := negb completed in
  submit e
    [("intent", "update"); ("id", id);
     ("completed", if newCompleted then "true" else "false")]
    w.

(** [handleEditTodo(todo)] with the [id] and [title] of the todo. *)
Definition handleEditTodo (id title : string) (w : World) : World :=
  with_page (fun p => setEditTodoTitle title (setEditingTodoId (Some id) p)) w.

Definition handleSaveEdit (e : Env) (w : World) : World :=
  match editingTodoId (page w) with
  | None => w
  | Some id =>
      if String.eqb id EmptyString
         || String.eqb (trim (editTodoTitle (page w))) EmptyString
      then w
      else
        let updatedTitle := trim (editTodoTitle (page w)) in
        submit e [("intent", "update"); ("id", id); ("title", updatedTitle)] w
  end.

Definition handleCancelEdit (w : World) : World :=
  with_page
    (fun p => setEditTodoTitle EmptyString (setEditingTodoId None p)) w.

Definition delete_toast_id (id : string) : string := "todo-delete-" ++ id.

Definition handleDeleteTodo (id : string) (e : Env) (w : World) : World :=
  if nonempty (deletingTodoId (page w)) then w
  else
    with_toasts
      (Toast.addToast (dateNow e) (random e)
         {| Toast.init_id := Some (delete_toast_id id);
            Toast.init_title := "Todo Deleted";
            Toast.init_description :=
              Some "Todo has been deleted. Click to undo.";
            Toast.init_duration := Some 1000;
            Toast.init_action :=
              Some {| Toast.label := "Undo";
                      Toast.onClick := Toast.UndoDelete id |};
            Toast.init_onDismiss := Some (Toast.CommitDelete id) |})
      (with_page (setDeleting (Some id)) w).

Definition handleUndoDelete (id : string) (w : World) : World :=
  with_toasts (Toast.removeToastById (delete_toast_id id))
    (with_page (setDeleting None) w).

(** [toast.onDismiss()] *)
Definition run_onDismiss (h : Toast.DismissHandler) (e : Env) (w : World)
    : World :=
  match h with
  | Toast.CommitDelete id =>
      match deletingTodoIdRef (page w) with
      | Some current =>
          if String.eqb current id then
            submit e [("intent", "delete"); ("id", id)] w
          else w
      | None => w
      end
  end.

(** [handleDismiss(toast)] of [GlobalToast].  The callback issues its
    submission and returns; [removeToast] runs next, before the result of the
    submission arrives. *)
Definition handleDismiss (toast : Toast.ToastMessage) (e : Env) (w : World)
    : World :=
  let w1 := with_toasts (Toast.removeToast (Toast.id toast)) w in
  match Toast.onDismiss toast with
  | Some h => run_onDismiss h e w1
  | None => w1
  end.

(** [toast.action?.onClick()] of the action button of a toast. *)
Definition run_onClick (h : Toast.ClickHandler) (w : World) : World :=
  match h with
  | Toast.UndoDelete id => handleUndoDelete id w
  end.

(** The events of a session.  A toast is named by its position in the
    queue. *)
Inductive Event : Type :=
  | TypeNewTodo (s : string)
  | SubmitNewTodo (e : Env)
  | ToggleComplete (id : string) (completed : bool) (e : Env)
  | StartEdit (id title : string)
  | TypeEdit (s : string)
  | SaveEdit (e : Env)
  | CancelEdit
  | ClickDelete (id : string) (e : Env)
  | ClickToastAction (i : nat)
  | ToastClosed (i : nat) (e : Env).   (* onOpenChange(false): expiry or dismissal *)

Definition step (w : World) (ev : Event) : World :=
  match ev with
  | TypeNewTodo s => with_page (setNewTodoTitle s) w
  | SubmitNewTodo e => handleAddTodo e w
  | ToggleComplete id completed e => handleToggleComplete id completed e w
  | StartEdit id title => handleEditTodo id title w
  | TypeEdit s => with_page (setEditTodoTitle s) w
  | SaveEdit e => handleSaveEdit e w
  | CancelEdit => handleCancelEdit w
  | ClickDelete id e => handleDeleteTodo id e w
  | ClickToastAction i =>
      match toasts w !! i with
      | Some toast =>
          match Toast.action toast with
          | Some a => run_onClick (Toast.onClick a) w
          | None => w
          end
      | None => w
      end
  | ToastClosed i e =>
      match toasts w !! i with
      | Some toast => handleDismiss toast e w
      | None => w
      end
  end.

Definition run (w : World) (evs : list Event) : World :=
  fold_left step evs w.

End TodosPage.
Import TodosPage.

(** ** Orders and invariants the properties speak about *)
Module Terms.

(** ISO-8601 UTC timestamps of one width are ordered as their strings. *)
Definition earlier (a b : string) : Prop := String.ltb a b = true.

(** [todo.updatedAt || todo.createdAt], the time the page shows for a todo. *)
Definition last_stamp (todo : gmap string json) : option json :=
  match todo !! "updatedAt" with
  | Some u => if truthy u then Some u else todo !! "createdAt"
  | None => todo !! "createdAt"
  end.

(** Every record of the store has a non-empty string as its title. *)
Definition titled (kv : gmap string json) : Prop :=
  map_Forall
    (fun _ v => exists t, prop "title" v = Some (JStr t) /\ t <> EmptyString)
    kv.

(** What the action makes of the outcome of its one request: a thrown value
    and a status outside 200..299 both become the error tag. *)
Definition outcome (verb : string) (parsed : Response -> ActionData)
    (o : result Response) : ActionData :=
  match o with
  | Throw e => ActError (error_message e)
  | Ok r => if ok r then parsed r else ActError (error_message (failed verb r))
  end.

Definition created (r : Response) : ActionData :=
  match body r with
  | Some d => ActCreate d
  | None => ActError (syntax_error r)
  end.

Definition updated (r : Response) : ActionData :=
  match body r with
  | Some d => ActUpdate d
  | None => ActError "Invalid response from server"
  end.

(** The record [todos.post] builds from the body of the dispatcher. *)
Definition new_record (e : Env) (title : string) : gmap string json :=
  <["createdAt" := JStr (serverNow e)]>
    (<["completed" := JBool false]>
       (<["id" := JStr (uuid e)]> (create_body (clientNow e) title))).

(** The toast [handleDeleteTodo] asks for. *)
Definition delete_toast (id : string) (e : Env) : Toast.ToastMessage :=
  {| Toast.id := delete_toast_id id;
     Toast.title := "Todo Deleted";
     Toast.description := Some "Todo has been deleted. Click to undo.";
     Toast.createdAt := dateNow e;
     Toast.duration := Some 1000;
     Toast.action :=
       Some {| Toast.label := "Undo"; Toast.onClick := Toast.UndoDelete id |};
     Toast.onDismiss := Some (Toast.CommitDelete id) |}.







(** The deletions an event asks for are of plain ids. *)
Definition deletes_plain (ev : Event) : Prop :=
  forall id e, ev = ClickDelete id e -> plain_segment id = true.


End Terms.
Import Terms.

(** ** Sample data *)
Module Samples.

Definition milk : gmap string json :=
  <["createdAt" := JStr "2024-05-01T10:00:00.000Z"]>
    (<["completed" := JBool false]>
       (<["id" := JStr "todo-1"]> {[ "title" := JStr "Buy milk" ]})).

Definition store1 : gmap string json := {[ "todo-1" := JObj milk ]}.

(** The answer to a request that no route of the worker takes. *)
Definition stray : Response :=
  {| status := 404; statusText := "Not Found"; body := None;
     jsonError := "Unexpected token < in JSON at position 0" |}.

Definition env1 : Env :=
  {| uuid := "todo-2";
     serverNow := "2024-05-01T10:00:00.000Z";
     clientNow := "2024-05-01T09:59:59.900Z";
     dateNow := 1714557600000;
     random := 42;
     listed := ["todo-1"];
     target := fun _ => NoRoute stray |}.

Definition env2 : Env :=
  {| uuid := "todo-3";
     serverNow := "2024-05-01T10:00:05.000Z";
     clientNow := "2024-05-01T10:00:04.900Z";
     dateNow := 1714557605000;
     random := 7;
     listed := ["todo-1"; "todo-2"];
     target := fun _ => NoRoute stray |}.

Definition page1 : Page :=
  {| todos := [JObj milk];
     newTodoTitle := EmptyString;
     editingTodoId := None;
     editTodoTitle := EmptyString;
     deletingTodoId := None;
     deletingTodoIdRef := None;
     srAnnouncement := EmptyString |}.


(** A direct PUT body that supplies [createdAt]. *)
Definition backdate : json :=
  JObj {[ "createdAt" := JStr "1999-12-31T23:59:59.000Z" ]}.

(** The form [handleToggleComplete] submits for the sample todo. *)
Definition toggle_form : FormData :=
  [("intent", "update"); ("id", "todo-1"); ("completed", "true")].

(** A direct PUT body that blanks the title. *)
Definition untitle : json := JObj {[ "title" := JStr EmptyString ]}.

(** The form that toggles the sample todo back. *)
Definition untoggle_form : FormData :=
  [("intent", "update"); ("id", "todo-1"); ("completed", "false")].

(** A create form whose title is blank. *)
Definition blank_form : FormData := [("intent", "create"); ("title", "   ")].

Definition world1 : World :=
  {| kv := store1; page := page1; toasts := []; requests := [] |}.

(** The page still shows the sample todo, which has left the store. *)
Definition stale_world : World :=
  {| kv := ∅; page := page1; toasts := []; requests := [] |}.



(** A store with a key that holds the number 0. *)
Definition zero_store : gmap string json := {[ "todo-0" := JNum 0 ]}.

End Samples.
Import Samples.

(** ** The rest of the facade: the mock data route *)
Module MockData.

(** The character class [[a-zA-Z0-9-]]. *)
Definition in_class (c : ascii) : bool :=
  let n := nat_of_ascii c in
  (Nat.leb 97 n && Nat.leb n 122)
  || (Nat.leb 65 n && Nat.leb n 90)
  || (Nat.leb 48 n && Nat.leb n 57)
  || Nat.eqb n 45.

Fixpoint skip_class (s : string) : string :=
  match s with
  | EmptyString => EmptyString
  | String c s' => if in_class c then skip_class s' else s
  end.

(** [/^[a-zA-Z0-9-]+(\.json)?$/.test(filename)]: the dot is outside the
    class, so the run of class characters ends at the first other character
    and what follows must be nothing or [.json]. *)
Definition filename_ok (filename : string) : bool :=
  match filename with
  | EmptyString => false
  | String c rest =>
      in_class c
      && (String.eqb (skip_class rest) EmptyString
          || String.eqb (skip_class rest) ".json")
  end.

(** [s.endsWith(suffix)] *)
Fixpoint endsWith (suffix s : string) : bool :=
  String.eqb s suffix
  || match s with
     | EmptyString => false
     | String _ s' => endsWith suffix s'
     end.

Definition normalizedFilename (filename : string) : string :=
  if endsWith ".json" filename then filename else filename ++ ".json".

(** What [c.env.ASSETS.fetch] does for one path: it throws, or answers with
    [response.ok] and a body of which [response.json()] gives the data or
    throws. *)
Inductive Fetched : Type :=
  | FetchThrows (e : thrown)
  | FetchResponse (is_ok : bool) (content : result json).

(** The bindings the route reads.  [MOCK_API] is [true] for the boolean
    [true] only; [ASSETS] may be missing; a preloaded module is the raw text
    of a file, not empty, kept here as what [JSON.parse] makes of it: the
    data, or what it throws. *)
Record Env : Type := mkEnv {
  MOCK_API : bool;
  ASSETS : option (string -> Fetched);
  mockDataModules : gmap string (result json)
}.

Definition asset_path (normalized : string) : string :=
  "/mock-data/" ++ normalized.

Definition module_path (normalized : string) : string :=
  "../mock-data/" ++ normalized.

(** The preloaded module, after a missing or failed asset. *)
Definition from_modules (env : Env) (normalized : string) : result json :=
  match mockDataModules env !! module_path normalized with
  | Some parsed => parsed
  | None => Throw (ErrorObj "File not found")
  end.

(** [loadMockData(c, filename)] *)
Definition loadMockData (env : Env) (filename : string) : result json :=
  if negb (MOCK_API env) then Throw (ErrorObj "Mock API is disabled")
  else if negb (filename_ok filename) then Throw (ErrorObj "Invalid filename")
  else
    let normalized := normalizedFilename filename in
    match ASSETS env with
    | Some fetch =>
        match fetch (asset_path normalized) with
        | FetchThrows e => Throw e
        | FetchResponse true content => content
        | FetchResponse false _ => from_modules env normalized
        end
    | None => from_modules env normalized
    end.

(** The [catch] of the route. *)
Definition caught (error : thrown) : Response :=
  match error with
  | ErrorObj m =>
      if String.eqb m "Invalid filename" then c_json (error_body m) 400
      else if String.eqb m "Mock API is disabled" then
        c_json (error_body m) 403
      else c_json (error_body "File not found") 404
  | NonError => c_json (error_body "File not found") 404
  end.

(** [app.get("/api/:filename")], [filename] being the parameter the route
    is given. *)
Definition api_filename (env : Env) (filename : string) : Response :=
  match loadMockData env filename with
  | Ok data => c_json data 200
  | Throw error => caught error
  end.

(** A non-empty word of class characters. *)
Fixpoint all_in_class (s : string) : bool :=
  match s with
  | EmptyString => true
  | String c s' => in_class c && all_in_class s'
  end.

Definition word (s : string) : Prop :=
  s <> EmptyString /\ all_in_class s = true.

(** A character occurs in a string. *)
Fixpoint occurs (c : ascii) (s : string) : bool :=
  match s with
  | EmptyString => false
  | String d s' => Ascii.eqb c d || occurs c s'
  end.

(** GET on [/api/<segment>], [segment] being the segment as the routes see
    it.  The routes are tried in the order of their registration, and
    [app.route("/api/todos", todos)] comes before
    [app.get("/api/:filename")]: the segment [todos] is answered by the
    listing and never reaches the mock data route. *)
Definition get_api (env : Env) (keys : list string) (kv : gmap string json)
    (segment : string) : Response :=
  if String.eqb segment "todos" then todos_get keys kv
  else api_filename env segment.

(** The messages the route singles out. *)
Definition singled_out (e : thrown) : Prop :=
  e = ErrorObj "Invalid filename" \/ e = ErrorObj "Mock API is disabled".

(** Nothing that the asset fetch, the parsing of its answer or the parsing
    of a preloaded module throws is an [Error] with one of these
    messages. *)
Definition plain_assets (env : Env) : Prop :=
  (forall fetch path e,
     ASSETS env = Some fetch ->
     fetch path = FetchThrows e \/ fetch path = FetchResponse true (Throw e) ->
     ~ singled_out e)
  /\ (forall path e,
        mockDataModules env !! path = Some (Throw e) -> ~ singled_out e).

End MockData.

(** ** Invariants of a page session *)
Module Session.

(** A toast that carries a dismiss callback: the toast of a deletion. *)
Definition is_delete_toast (t : Toast.ToastMessage) : bool :=
  match Toast.onDismiss t with
  | Some _ => true
  | None => false
  end.

(** The other toasts of the application: no action, no callback, and the
    generated id. *)
Definition plain_toast (t : Toast.ToastMessage) : Prop :=
  Toast.action t = None
  /\ Toast.onDismiss t = None
  /\ exists now rnd, Toast.id t = Toast.generated_id now rnd.

(** At most one undo window: the state and the ref name the same pending
    deletion, of a plain id; the queue holds exactly its toast when there is
    one and no deletion toast otherwise, and every other toast is a plain
    one. *)
Definition one_window (w : World) : Prop :=
  deletingTodoId (page w) = deletingTodoIdRef (page w)
  /\ Forall plain_toast
       (List.filter (fun t => negb (is_delete_toast t)) (toasts w))
  /\ match deletingTodoIdRef (page w) with
     | None => List.filter is_delete_toast (toasts w) = []
     | Some id =>
         plain_segment id = true
         /\ exists e, List.filter is_delete_toast (toasts w)
                      = [delete_toast id e]
     end.

(** What holds of the windows whether or not the requests succeed: the state
    and the ref name the same deletion, the queue holds no deletion toast or
    only the toast of the pending deletion, and every other toast is a plain
    one.  (After a DELETE that was not answered with a success the deletion
    stays pending without a toast.) *)
Definition at_most_one_window (w : World) : Prop :=
  deletingTodoId (page w) = deletingTodoIdRef (page w)
  /\ Forall plain_toast
       (List.filter (fun t => negb (is_delete_toast t)) (toasts w))
  /\ (List.filter is_delete_toast (toasts w) = []
      \/ exists id e,
           deletingTodoIdRef (page w) = Some id
           /\ id <> EmptyString
           /\ List.filter is_delete_toast (toasts w) = [delete_toast id e]).






End Session.
Import Session.

(** ** What the page derives from its list: [sortedTodos], the filter, the
    counts of the tabs *)
Module Filters.

Inductive Filter : Type := All | Active | Completed.

(** [todo.completed] as a condition. *)
Definition is_completed (todo : json) : bool :=
  match prop "completed" todo with
  | Some v => truthy v
  | None => false
  end.

(** [filteredTodos], from [sortedTodos] and the filter. *)
Definition filteredTodos (filter : Filter) (sortedTodos : list json)
    : list json :=
  match filter with
  | Active => List.filter (fun todo => negb (is_completed todo)) sortedTodos
  | Completed => List.filter (fun todo => is_completed todo) sortedTodos
  | All => sortedTodos
  end.

Record Counts : Type := mkCounts {
  all : nat;
  active : nat;
  completed : nat
}.

(** [currentCounts] of the effect, also the numbers shown on the tabs. *)
Definition currentCounts (sortedTodos : list json) : Counts :=
  {| all := length sortedTodos;
     active :=
       length (List.filter (fun t => negb (is_completed t)) sortedTodos);
     completed := length (List.filter (fun t => is_completed t) sortedTodos) |}.

(** [completedCount] and [totalCount] of the header, taken from [todos]. *)
Definition completedCount (todos : list json) : nat :=
  length (List.filter (fun todo => is_completed todo) todos).

Definition totalCount (todos : list json) : nat := length todos.

(** The tab the effect highlights ([setAnimatingFilter]), if any, from the
    selected filter, the counts it saw last and the current ones. *)
Definition highlighted (filter : Filter) (prevCounts current : Counts)
    : option Filter :=
  if Nat.eqb (all prevCounts) 0 then None
  else
    match filter with
    | Completed =>
        if Nat.ltb (active prevCounts) (active current) then Some Active
        else None
    | Active =>
        if Nat.ltb (completed prevCounts) (completed current)
        then Some Completed
        else None
    | All => None
    end.

End Filters.

(** ** [getPreferredLocale] of the loader *)
Module Locale.

(** [s.split(sep)] for a one-character separator. *)
Fixpoint split (sep : ascii) (s : string) : list string :=
  match s with
  | EmptyString => [EmptyString]
  | String c s' =>
      if Ascii.eqb c sep then EmptyString :: split sep s'
      else
        match split sep s' with
        | first :: rest => String c first :: rest
        | [] => [String c EmptyString]
        end
  end.

Section GetPreferredLocale.
(** [String.prototype.toUpperCase], which the embedding does not define. *)
Variable toUpperCase : string -> string.

Definition getPreferredLocale (acceptLanguage : option string) : string :=
  match acceptLanguage with
  | None => "en-US"
  | Some header =>
      if String.eqb header EmptyString then "en-US"
      else
        let preferredLang :=
          split "-" (trim (hd EmptyString (split "," header))) in
        let language := hd EmptyString preferredLang in
        let region :=
          match preferredLang !! 1%nat with
          | Some r =>
              if String.eqb r EmptyString then toUpperCase language else r
          | None => toUpperCase language
          end in
        language ++ "-" ++ region
  end.

End GetPreferredLocale.

End Locale.

(** ** The countdown of a toast: [ToastWithTimer] *)
Module ToastTimer.

(** [Math.ceil(duration / 1000)] for a whole number of milliseconds. *)
Definition ceil_seconds (duration : Z) : Z := - ((- duration) / 1000).

(** The initial [timeLeft]. *)
Definition initialTimeLeft (duration : option Z) : Z :=
  match duration with
  | Some d => if Z.eqb d 0 then 0 else ceil_seconds d
  | None => 0
  end.

(** One tick of the interval: [prev <= 1 ? 0 : prev - 1]. *)
Definition tick (prev : Z) : Z := if Z.leb prev 1 then 0 else prev - 1.

(** [timeLeft] after [n] ticks; once it is 0 the interval is cleared, and a
    further tick would leave 0. *)
Definition timeLeft (n : nat) (duration : option Z) : Z :=
  Nat.iter n tick (initialTimeLeft duration).

End ToastTimer.

(** ** The theme: [ThemeToggle] and the [Layout] that listens to it *)
Module Theme.

Record State : Type := mkState {
  theme : string;             (* state of ThemeToggle *)
  appearance : string;        (* state of Layout *)
  saved : option string       (* localStorage.getItem("theme") *)
}.

(** Both components start with ["dark"]. *)
Definition initial (stored : option string) : State :=
  {| theme := "dark"; appearance := "dark"; saved := stored |}.

(** The two mount effects: a saved value that is not empty is taken as it
    is. *)
Definition mount (st : State) : State :=
  match saved st with
  | Some savedTheme =>
      if String.eqb savedTheme EmptyString then st
      else {| theme := savedTheme; appearance := savedTheme;
              saved := saved st |}
  | None => st
  end.

(** [toggleTheme]: the new theme is set, stored, and sent to the [Layout] in
    a [themechange] event. *)
Definition toggleTheme (st : State) : State :=
  let newTheme := if String.eqb (theme st) "dark" then "light" else "dark" in
  {| theme := newTheme; appearance := newTheme; saved := Some newTheme |}.

(** The switch, the layout and the storage agree on a theme that is one of
    the two. *)
Definition in_step (st : State) : Prop :=
  theme st = appearance st
  /\ saved st = Some (theme st)
  /\ (theme st = "light" \/ theme st = "dark").

End Theme.

(** ** More sample data *)
Module MoreSamples.

(** Bindings for the mock data route: one asset, one preloaded module. *)
Definition mock_env : MockData.Env :=
  {| MockData.MOCK_API := true;
     MockData.ASSETS :=
       Some (fun path =>
               if String.eqb path "/mock-data/cities.json"
               then MockData.FetchResponse true (Ok (JArr [JStr "Oslo"]))
               else MockData.FetchResponse false (Throw NonError));
     MockData.mockDataModules :=
       {[ "../mock-data/users.json" := Ok (JArr [JStr "ada"]) ]} |}.

(** An upper-casing of the letters a to z, to try [getPreferredLocale]
    with. *)
Definition upper_letter (c : ascii) : ascii :=
  let n := nat_of_ascii c in
  if Nat.leb 97 n && Nat.leb n 122 then ascii_of_nat (n - 32) else c.

Fixpoint upper_letters (s : string) : string :=
  match s with
  | EmptyString => EmptyString
  | String c s' => String (upper_letter c) (upper_letters s')
  end.

End MoreSamples.
Import MoreSamples.

(** * Properties *)

(** ** The operations on sample inputs *)

Example trim_sample :
  trim "  Walk dog " = "Walk dog" /\ trim "   " = EmptyString.
Proof. split; reflexivity. Qed.

Example post_sample :
  let r := todos_post "todo-2" "2024-05-01T10:00:05.000Z"
             (Some (JObj {[ "title" := JStr "Walk dog" ]})) store1 in
  status (snd r) = 201
  /\ dom (fst r) = {[ "todo-1"; "todo-2" ]}
  /\ (fst r !! "todo-2") ≫= prop "completed" = Some (JBool false).
Proof. vm_compute. repeat split. Qed.

Example put_missing_sample :
  todos_put "2024-05-01T10:00:05.000Z" "todo-9"
    (Some (JObj {[ "completed" := JBool true ]})) store1
  = (store1, c_json (error_body "TODO not found") 404).
Proof. reflexivity. Qed.

Example spread_of_a_string :
  own_props (JStr "ab") = {[ "0" := JStr "a"; "1" := JStr "b" ]}.
Proof. reflexivity. Qed.

Example delete_then_undo_sample :
  let w := run world1 [ClickDelete "todo-1" env1; ClickToastAction 0] in
  requests w = [] /\ toasts w = [] /\ kv w = store1
  /\ todos (page w) = [JObj milk].
Proof. repeat split. Qed.

Example delete_then_lapse_sample :
  let w := run world1 [ClickDelete "todo-1" env1; ToastClosed 0 env2] in
  requests w = [DeleteTodo "todo-1"] /\ toasts w = [] /\ kv w = ∅
  /\ todos (page w) = [].
Proof. repeat split. Qed.

Example second_delete_is_ignored :
  step (step world1 (ClickDelete "todo-1" env1)) (ClickDelete "todo-7" env2)
  = step world1 (ClickDelete "todo-1" env1).
Proof. reflexivity. Qed.

(** ** The facade keeps a store of records *)

Lemma store_records_empty : store_records ∅.
Proof. apply map_Forall_empty. Qed.

Lemma route_store_records uuid now req kv :
  store_records kv -> store_records (fst (route uuid now req kv)).
Proof.
  intros Hkv. destruct req as [b | id b | id]; simpl.
  - destruct b as [todo |]; simpl; [| exact Hkv].
    apply map_Forall_insert_2; [eexists; reflexivity | exact Hkv].
  - unfold todos_put. destruct b as [updates |]; simpl; [| exact Hkv].
    destruct (truthy (kv_get kv id)); simpl; [| exact Hkv].
    apply map_Forall_insert_2; [eexists; reflexivity | exact Hkv].
  - apply map_Forall_delete. exact Hkv.
Qed.

Lemma store_records_truthy kv id v :
  store_records kv -> kv !! id = Some v -> truthy v = true.
Proof.
  intros Hkv Hv. destruct (Hkv id v Hv) as [m ->]. reflexivity.
Qed.

(** ** C9: delete *)

(** C9. DELETE answers [{success: true}] with status 200 for every id,
    whether or not the store holds a record under it, and deleting an id a
    second time leaves the store as the first deletion left it. *)
Theorem todos_delete_idempotent (id : string) (kv : gmap string json) :
  snd (todos_delete id kv) = c_json (JObj {[ "success" := JBool true ]}) 200
  /\ status (snd (todos_delete id kv)) = 200
  /\ fst (todos_delete id kv) !! id = None
  /\ fst (todos_delete id (fst (todos_delete id kv))) = fst (todos_delete id kv)
  /\ snd (todos_delete id (fst (todos_delete id kv))) = snd (todos_delete id kv).
Proof.
  unfold todos_delete; simpl. repeat split.
  - apply lookup_delete_eq.
  - apply delete_id, lookup_delete_eq.
Qed.

(** ** C5: update and NotFound *)

Lemma kv_get_falsy_iff kv id :
  store_records kv -> (truthy (kv_get kv id) = false <-> kv !! id = None).
Proof.
  intros Hkv. unfold kv_get. destruct (kv !! id) as [v |] eqn:Hv; simpl.
  - rewrite (store_records_truthy kv id v Hkv Hv). split; discriminate.
  - split; reflexivity.
Qed.

Lemma merge_update_lookup now existing updates k :
  merge_update now existing updates !! k =
    if decide ("updatedAt" = k) then Some (JStr now)
    else match own_props updates !! k with
         | Some v => Some v
         | None => own_props existing !! k
         end.
Proof.
  unfold merge_update. rewrite lookup_insert. case_decide; [reflexivity |].
  rewrite lookup_union. destruct (own_props updates !! k) as [v |].
  - destruct (own_props existing !! k); reflexivity.
  - destruct (own_props existing !! k); reflexivity.
Qed.

(** C5, as stated, fails in both directions: 404 is the answer for a key
    that is present when the value it holds is falsy, and a body that is not
    JSON is answered 500, not 404, for an id that is absent. *)
Lemma put_not_found_is_not_absence :
  is_Some (zero_store !! "todo-0")
  /\ todos_put "2024-05-01T10:00:05.000Z" "todo-0"
       (Some (JObj {[ "completed" := JBool true ]})) zero_store
     = (zero_store, c_json (error_body "TODO not found") 404)
  /\ store1 !! "todo-9" = None
  /\ todos_put "2024-05-01T10:00:05.000Z" "todo-9" None store1
     = (store1, c_json (error_body "Failed to update TODO") 500).
Proof.
  split; [eexists; reflexivity |]. split; [reflexivity |].
  split; reflexivity.
Qed.

(** C5, amended. On a store of records, PUT with a JSON body answers 404
    exactly when the id is absent, and then leaves the store as it was; when
    the id is present it answers 200 with the merged record, whose
    [updatedAt] is the time of the request, and stores that record. *)
Theorem todos_put_not_found_iff (now id : string) (updates : json)
    (kv : gmap string json) :
  store_records kv ->
  let r := todos_put now id (Some updates) kv in
  (status (snd r) = 404 <-> kv !! id = None)
  /\ (kv !! id = None ->
      fst r = kv /\ snd r = c_json (error_body "TODO not found") 404)
  /\ (forall existing, kv !! id = Some existing ->
      let merged := merge_update now existing updates in
      snd r = c_json (JObj merged) 200
      /\ fst r = <[id := JObj merged]> kv
      /\ merged !! "updatedAt" = Some (JStr now)
      /\ forall k, k <> "updatedAt" ->
           merged !! k = match own_props updates !! k with
                         | Some v => Some v
                         | None => own_props existing !! k
                         end).
Proof.
  intros Hkv r. subst r. unfold todos_put.
  pose proof (kv_get_falsy_iff kv id Hkv) as Hfalsy.
  destruct (truthy (kv_get kv id)) eqn:Ht; simpl.
  - assert (Hsome : kv !! id <> None).
    { intros Hnone. apply Hfalsy in Hnone. discriminate. }
    split; [split; [discriminate | intros Hn; contradiction] |].
    split; [intros Hn; contradiction |].
    intros existing Hex. unfold kv_get. rewrite Hex. simpl.
    repeat split.
    + rewrite merge_update_lookup. case_decide; [reflexivity | contradiction].
    + intros k Hk. rewrite merge_update_lookup.
      case_decide; [congruence | reflexivity].
  - assert (Hnone : kv !! id = None) by (apply Hfalsy; reflexivity).
    split; [split; [intros _; exact Hnone | reflexivity] |].
    split; [intros _; split; reflexivity |].
    intros existing Hex. congruence.
Qed.

Lemma store_records_store1 : store_records store1.
Proof.
  apply map_Forall_singleton. eexists. reflexivity.
Qed.

Lemma todos_put_not_found_iff_witness :
  store_records store1
  /\ (status (snd (todos_put "2024-05-01T10:00:05.000Z" "todo-9"
                     (Some (JObj {[ "completed" := JBool true ]})) store1))
        = 404 <-> store1 !! "todo-9" = None)
  /\ (status (snd (todos_put "2024-05-01T10:00:05.000Z" "todo-1"
                     (Some (JObj {[ "completed" := JBool true ]})) store1))
        = 404 <-> store1 !! "todo-1" = None)
  /\ snd (todos_put "2024-05-01T10:00:05.000Z" "todo-1"
            (Some (JObj {[ "completed" := JBool true ]})) store1)
     = c_json
         (JObj (merge_update "2024-05-01T10:00:05.000Z" (JObj milk)
                  (JObj {[ "completed" := JBool true ]}))) 200.
Proof.
  split; [exact store_records_store1 |].
  split.
  { exact (proj1 (todos_put_not_found_iff "2024-05-01T10:00:05.000Z" "todo-9"
                    (JObj {[ "completed" := JBool true ]}) store1
                    store_records_store1)). }
  destruct (todos_put_not_found_iff "2024-05-01T10:00:05.000Z" "todo-1"
              (JObj {[ "completed" := JBool true ]}) store1
              store_records_store1) as (Hiff & _ & Hpresent).
  split; [exact Hiff |].
  exact (proj1 (Hpresent (JObj milk) eq_refl)).
Defined.

(** ** The action, case by case *)

Section ActionFacts.
Context {S : Type} (fetchApi : ApiRequest -> M S Response) (now : string).

Lemma nonempty_false (o : option string) :
  nonempty o = false <-> o = None \/ o = Some EmptyString.
Proof.
  destruct o as [x |]; simpl.
  - destruct (String.eqb x EmptyString) eqn:Hx; simpl.
    + apply String.eqb_eq in Hx. subst x. split; [right; reflexivity | reflexivity].
    + apply String.eqb_neq in Hx.
      split; [discriminate | intros [H | H]; congruence].
  - split; [left; reflexivity | reflexivity].
Qed.

Lemma action_create_blank fd s :
  fd_get "intent" fd = Some "create" ->
  nonempty (trim <$> fd_get "title" fd) = false ->
  action fetchApi now fd s = (s, ActError "Title is required").
Proof.
  intros Hi Hblank. unfold action, switch_intent. rewrite Hi.
  change (String.eqb "create" "create") with true. cbv iota.
  unfold create_case. apply nonempty_false in Hblank.
  destruct Hblank as [-> | ->]; reflexivity.
Qed.

Lemma action_create_eq fd s t :
  fd_get "intent" fd = Some "create" ->
  fd_get "title" fd = Some t ->
  trim t <> EmptyString ->
  action fetchApi now fd s =
    (fst (fetchApi (PostTodos (Some (JObj (create_body now (trim t))))) s),
     outcome "create" created
       (snd (fetchApi (PostTodos (Some (JObj (create_body now (trim t))))) s))).
Proof.
  intros Hi Ht Hne. unfold action, switch_intent. rewrite Hi.
  change (String.eqb "create" "create") with true. cbv iota.
  unfold create_case. rewrite Ht.
  change (trim <$> Some t) with (Some (trim t)). cbv iota.
  apply String.eqb_neq in Hne. rewrite Hne. unfold bind.
  destruct (fetchApi _ s) as [s1 [r | e]]; simpl; [| reflexivity].
  unfold created, response_json.
  destruct (ok r); simpl; [| reflexivity].
  destruct (body r); reflexivity.
Qed.

Lemma action_update_no_id fd s :
  fd_get "intent" fd = Some "update" ->
  nonempty (fd_get "id" fd) = false ->
  action fetchApi now fd s = (s, ActError "Todo ID is required").
Proof.
  intros Hi Hid. unfold action, switch_intent. rewrite Hi.
  change (String.eqb "update" "create") with false.
  change (String.eqb "update" "update") with true. cbv iota.
  unfold update_case. apply nonempty_false in Hid.
  destruct Hid as [-> | ->]; reflexivity.
Qed.

Lemma action_update_eq fd s id :
  fd_get "intent" fd = Some "update" ->
  fd_get "id" fd = Some id ->
  id <> EmptyString ->
  let req :=
    PutTodo id
      (Some (JObj (update_body id (fd_get "title" fd)
                     (fd_get "completed" fd)))) in
  action fetchApi now fd s =
    (fst (fetchApi req s), outcome "update" updated (snd (fetchApi req s))).
Proof.
  intros Hi Hid Hne req. subst req. unfold action, switch_intent. rewrite Hi.
  change (String.eqb "update" "create") with false.
  change (String.eqb "update" "update") with true. cbv iota.
  unfold update_case. rewrite Hid.
  apply String.eqb_neq in Hne. rewrite Hne. unfold bind.
  destruct (fetchApi _ s) as [s1 [r | e]]; simpl; [| reflexivity].
  unfold updated, try_catch, bind, response_json.
  destruct (ok r); simpl; [| reflexivity].
  destruct (body r); reflexivity.
Qed.

Lemma action_delete_no_id fd s :
  fd_get "intent" fd = Some "delete" ->
  nonempty (fd_get "id" fd) = false ->
  action fetchApi now fd s = (s, ActError "Todo ID is required").
Proof.
  intros Hi Hid. unfold action, switch_intent. rewrite Hi.
  change (String.eqb "delete" "create") with false.
  change (String.eqb "delete" "update") with false.
  change (String.eqb "delete" "delete") with true. cbv iota.
  unfold delete_case. apply nonempty_false in Hid.
  destruct Hid as [-> | ->]; reflexivity.
Qed.

Lemma action_delete_eq fd s id :
  fd_get "intent" fd = Some "delete" ->
  fd_get "id" fd = Some id ->
  id <> EmptyString ->
  action fetchApi now fd s =
    (fst (fetchApi (DeleteTodo id) s),
     outcome "delete" (fun _ => ActDelete id)
       (snd (fetchApi (DeleteTodo id) s))).
Proof.
  intros Hi Hid Hne. unfold action, switch_intent. rewrite Hi.
  change (String.eqb "delete" "create") with false.
  change (String.eqb "delete" "update") with false.
  change (String.eqb "delete" "delete") with true. cbv iota.
  unfold delete_case. rewrite Hid.
  apply String.eqb_neq in Hne. rewrite Hne. unfold bind.
  destruct (fetchApi _ s) as [s1 [r | e]]; simpl; [| reflexivity].
  destruct (ok r); reflexivity.
Qed.

Lemma action_unknown fd s :
  fd_get "intent" fd <> Some "create" ->
  fd_get "intent" fd <> Some "update" ->
  fd_get "intent" fd <> Some "delete" ->
  exists msg, action fetchApi now fd s = (s, ActError msg).
Proof.
  intros Hc Hu Hd. unfold action, switch_intent.
  destruct (fd_get "intent" fd) as [i |]; [| eexists; reflexivity].
  destruct (String.eqb i "create") eqn:E1.
  { apply String.eqb_eq in E1. congruence. }
  destruct (String.eqb i "update") eqn:E2.
  { apply String.eqb_eq in E2. congruence. }
  destruct (String.eqb i "delete") eqn:E3.
  { apply String.eqb_eq in E3. congruence. }
  eexists. reflexivity.
Qed.


End ActionFacts.

(** ** The routes, the loader and a submission *)

Lemma plain_segment_nonempty id : plain_segment id = true -> id <> EmptyString.
Proof. intros H ->. discriminate. Qed.

Lemma param_of_plain e id : plain_segment id = true -> param_of e id = Param id.
Proof. intros H. unfold param_of. rewrite H. reflexivity. Qed.

Lemma served_put_plain e id b store :
  plain_segment id = true ->
  served e (PutTodo id b) store = todos_put (serverNow e) id b store.
Proof. intros H. unfold served. rewrite (param_of_plain e id H). reflexivity. Qed.

Lemma served_delete_plain e id store :
  plain_segment id = true ->
  served e (DeleteTodo id) store = todos_delete id store.
Proof. intros H. unfold served. rewrite (param_of_plain e id H). reflexivity. Qed.

(** A request leaves the store as it is, or as the handler of a request of
    its kind leaves it. *)
Lemma served_cases e req store :
  fst (served e req store) = store
  \/ match req with
     | PostTodos b =>
         served e req store = todos_post (uuid e) (serverNow e) b store
     | PutTodo id b =>
         exists p, param_of e id = Param p
                   /\ served e req store = todos_put (serverNow e) p b store
     | DeleteTodo id =>
         exists p, param_of e id = Param p
                   /\ served e req store = todos_delete p store
     end.
Proof.
  destruct req as [b | id b | id]; cbn [served].
  - right. reflexivity.
  - destruct (param_of e id) as [p | r]; [right | left; reflexivity].
    exists p. split; reflexivity.
  - destruct (param_of e id) as [p | r]; [right | left; reflexivity].
    exists p. split; reflexivity.
Qed.

Lemma fetchInternal_eq e req store log :
  fetchInternal e req (store, log)
  = ((fst (served e req store), (log ++ [req])%list),
     Ok (snd (served e req store))).
Proof. reflexivity. Qed.

Lemma revalidate_eq e w :
  revalidate e w
  = with_page (setTodos (fun _ => items (todos_get (listed e) (kv w)))) w.
Proof. reflexivity. Qed.

(** ** C7: one error tag *)



(** ** C8: an error result and the list *)

(** C8, as stated, fails: the error result carries no
    [shouldRevalidate: false], so the router runs the loader again and the
    list of the page is replaced by the listing of the store.  A page that
    shows a todo which has left the store, and toggles it, gets 404, the
    error tag, and an empty list. *)
Lemma error_result_replaces_list :
  (exists err,
     snd (action (fetchInternal env2) (clientNow env2) toggle_form
            (kv stale_world, requests stale_world)) = ActError err)
  /\ requests (submit env2 toggle_form stale_world)
     = [PutTodo "todo-1"
          (Some (JObj (update_body "todo-1" None (Some "true"))))]
  /\ todos (page stale_world) = [JObj milk]
  /\ todos (page (submit env2 toggle_form stale_world)) = []
  /\ todos (page (submit env2 toggle_form stale_world))
     <> todos (page stale_world).
Proof.
  split; [eexists; reflexivity |]. split; [reflexivity |].
  split; [reflexivity |]. split; [reflexivity |]. discriminate.
Qed.

(** C8, amended. The effect run on an error result leaves the list of todos,
    the store, the edit state and the pending deletion as they were, and
    adds one notification, titled "Error", that carries the message and
    closes by itself after 3000 ms.  An error result does not stop the
    revalidation: a submission whose action resolves to the error tag ends
    with the list the loader reads from the store, in place of the list the
    page had, and with that one notification more. *)
Theorem error_result_reloads_list (e : Env) (err : string) (w : World) :
  let w' := actionEffect e (ActError err) w in
  todos (page w') = todos (page w)
  /\ kv w' = kv w
  /\ requests w' = requests w
  /\ editingTodoId (page w') = editingTodoId (page w)
  /\ deletingTodoId (page w') = deletingTodoId (page w)
  /\ deletingTodoIdRef (page w') = deletingTodoIdRef (page w)
  /\ (exists t,
        toasts w' = (toasts w ++ [t])%list
        /\ Toast.title t = "Error"
        /\ Toast.description t = Some err
        /\ Toast.duration t = Some 3000
        /\ Toast.action t = None
        /\ Toast.onDismiss t = None)
  /\ shouldRevalidate (Some (ActError err)) true = true
  /\ (forall fd,
        snd (action (fetchInternal e) (clientNow e) fd (kv w, requests w))
          = ActError err ->
        todos (page (submit e fd w))
          = items (todos_get (listed e) (kv (submit e fd w)))
        /\ toasts (submit e fd w) = toasts w'
        /\ editingTodoId (page (submit e fd w)) = editingTodoId (page w)
        /\ deletingTodoId (page (submit e fd w)) = deletingTodoId (page w)).
Proof.
  simpl. split; [reflexivity |]. split; [reflexivity |].
  split; [reflexivity |]. split; [reflexivity |]. split; [reflexivity |].
  split; [reflexivity |].
  split; [eexists; split; [reflexivity |]; repeat split |].
  split; [reflexivity |].
  intros fd Herr. unfold submit. rewrite Herr. repeat split.
Qed.

Lemma error_result_reloads_list_witness :
  snd (action (fetchInternal env1) (clientNow env1) blank_form
         (kv stale_world, requests stale_world))
    = ActError "Title is required"
  /\ todos (page (submit env1 blank_form stale_world))
     = items (todos_get (listed env1)
                (kv (submit env1 blank_form stale_world)))
  /\ items (todos_get (listed env1)
              (kv (submit env1 blank_form stale_world))) = [].
Proof.
  split; [reflexivity |]. split; [| reflexivity].
  apply (error_result_reloads_list env1 "Title is required" stale_world).
  reflexivity.
Defined.

(** ** C10: defaults of [addToast] *)






(** ** What a submission does to the store and to the record of requests *)

Lemma actionEffect_kv e a w : kv (actionEffect e a w) = kv w.
Proof. destruct a; reflexivity. Qed.

Lemma actionEffect_requests e a w : requests (actionEffect e a w) = requests w.
Proof. destruct a; reflexivity. Qed.

Lemma submit_kv e fd w :
  kv (submit e fd w) =
    fst (fst (action (fetchInternal e) (clientNow e) fd (kv w, requests w))).
Proof.
  unfold submit. rewrite actionEffect_kv.
  destruct (shouldRevalidate _ true); reflexivity.
Qed.

Lemma submit_requests e fd w :
  requests (submit e fd w) =
    snd (fst (action (fetchInternal e) (clientNow e) fd (kv w, requests w))).
Proof.
  unfold submit. rewrite actionEffect_requests.
  destruct (shouldRevalidate _ true); reflexivity.
Qed.

Lemma update_body_lookup_other id t c k :
  k <> "id" -> k <> "title" -> k <> "completed" ->
  update_body id t c !! k = None.
Proof.
  intros H1 H2 H3. unfold update_body, set_defined.
  destruct t, c; simpl;
    repeat (rewrite lookup_insert_ne by congruence);
    (rewrite lookup_singleton_ne by congruence); reflexivity.
Qed.

Lemma update_body_title id t c :
  update_body id t c !! "title" = JStr <$> t.
Proof. destruct t, c; reflexivity. Qed.

(** The store after an update submitted through the dispatcher: the PUT
    reaches the handler with a parameter [p], which is the id of the form
    when that id is plain, or it reaches no handler. *)
Lemma submit_update_kv e fd w :
  fd_get "intent" fd = Some "update" ->
  kv (submit e fd w) = kv w
  \/ exists id p,
       fd_get "id" fd = Some id /\ id <> EmptyString
       /\ param_of e id = Param p
       /\ kv (submit e fd w) =
            fst (todos_put (serverNow e) p
                   (Some (JObj (update_body id (fd_get "title" fd)
                                  (fd_get "completed" fd))))
                   (kv w)).
Proof.
  intros Hi. rewrite submit_kv.
  destruct (nonempty (fd_get "id" fd)) eqn:Hid.
  - destruct (fd_get "id" fd) as [id |] eqn:Hfid; [| discriminate].
    assert (Hne : id <> EmptyString).
    { intros ->. discriminate. }
    rewrite (action_update_eq (fetchInternal e) (clientNow e) fd
               (kv w, requests w) id Hi Hfid Hne).
    rewrite fetchInternal_eq. cbn [fst snd].
    destruct (served_cases e
                (PutTodo id
                   (Some (JObj (update_body id (fd_get "title" fd)
                                  (fd_get "completed" fd))))) (kv w))
      as [-> | (p & Hp & ->)]; [left; reflexivity |].
    right. exists id, p. repeat split; assumption.
  - left. rewrite action_update_no_id; [reflexivity | exact Hi | exact Hid].
Qed.

(** ** C3: what an update leaves alone *)

(** C3, as stated, fails: a PUT whose body supplies [createdAt] replaces the
    creation time of the stored record. *)
Lemma put_overwrites_createdAt :
  let r := todos_put "2024-05-01T10:00:05.000Z" "todo-1" (Some backdate)
             store1 in
  (store1 !! "todo-1") ≫= prop "createdAt"
    = Some (JStr "2024-05-01T10:00:00.000Z")
  /\ status (snd r) = 200
  /\ (fst r !! "todo-1") ≫= prop "createdAt"
       = Some (JStr "1999-12-31T23:59:59.000Z")
  /\ (fst r !! "todo-1") ≫= prop "createdAt"
       <> (store1 !! "todo-1") ≫= prop "createdAt".
Proof.
  vm_compute. repeat split. discriminate.
Qed.

(** C3, amended. A PUT on an existing record changes only the properties its
    body supplies and [updatedAt]: every other property, [createdAt] among
    them when the body does not supply it, keeps its value, and the other
    records are untouched.  The body the dispatcher builds for an update
    supplies only [id], [title] and [completed], so an update submitted
    through the dispatcher leaves the [createdAt] of every stored record as
    it was. *)
Theorem update_frame :
  (forall (now id : string) (updates existing : json)
          (store : gmap string json),
     store !! id = Some existing -> truthy existing = true ->
     let store' := fst (todos_put now id (Some updates) store) in
     (exists merged,
        store' !! id = Some (JObj merged)
        /\ (forall k, k <> "updatedAt" -> own_props updates !! k = None ->
              merged !! k = own_props existing !! k)
        /\ (own_props updates !! "createdAt" = None ->
              merged !! "createdAt" = own_props existing !! "createdAt")
        /\ (forall k v, k <> "updatedAt" -> own_props updates !! k = Some v ->
              merged !! k = Some v))
     /\ (forall other, other <> id -> store' !! other = store !! other))
  /\ (forall (e : Env) (fd : FormData) (w : World) (id : string) (v : json),
        fd_get "intent" fd = Some "update" ->
        kv w !! id = Some v ->
        exists v',
          kv (submit e fd w) !! id = Some v'
          /\ own_props v' !! "createdAt" = own_props v !! "createdAt").
Proof.
  split.
  - intros now id updates existing store Hex Ht store'. subst store'.
    unfold todos_put, kv_get. rewrite Hex. simpl. rewrite Ht. simpl. split.
    + exists (merge_update now existing updates).
      split; [apply lookup_insert_eq |].
      split; [| split].
      * intros k Hk Hnone. rewrite merge_update_lookup.
        case_decide; [congruence |]. rewrite Hnone. reflexivity.
      * intros Hnone. rewrite merge_update_lookup.
        case_decide; [discriminate |]. rewrite Hnone. reflexivity.
      * intros k v Hk Hsome. rewrite merge_update_lookup.
        case_decide; [congruence |]. rewrite Hsome. reflexivity.
    + intros other Hother. apply lookup_insert_ne. congruence.
  - intros e fd w id v Hi Hv.
    destruct (submit_update_kv e fd w Hi) as [-> | (id1 & id0 & _ & _ & _ & ->)];
      [exists v; split; [exact Hv | reflexivity] |].
    unfold todos_put.
    destruct (truthy (kv_get (kv w) id0)) eqn:Ht; simpl;
      [| exists v; split; [exact Hv | reflexivity]].
    destruct (decide (id0 = id)) as [-> | Hne].
    + eexists. split; [apply lookup_insert_eq |]. simpl.
      rewrite merge_update_lookup. case_decide; [discriminate |]. simpl.
      rewrite update_body_lookup_other by discriminate.
      unfold kv_get. rewrite Hv. reflexivity.
    + exists v. split; [| reflexivity].
      rewrite lookup_insert_ne by exact Hne. exact Hv.
Qed.

Lemma update_frame_witness :
  fd_get "intent" toggle_form = Some "update"
  /\ kv world1 !! "todo-1" = Some (JObj milk)
  /\ exists v',
       kv (submit env2 toggle_form world1) !! "todo-1" = Some v'
       /\ own_props v' !! "createdAt" = own_props (JObj milk) !! "createdAt".
Proof.
  split; [reflexivity |]. split; [reflexivity |].
  apply (proj2 update_frame env2 toggle_form world1 "todo-1" (JObj milk));
    reflexivity.
Defined.

(** ** C2: titles in the store *)

Lemma submit_create_kv e fd w :
  fd_get "intent" fd = Some "create" ->
  (kv (submit e fd w) = kv w /\ requests (submit e fd w) = requests w
   /\ nonempty (trim <$> fd_get "title" fd) = false)
  \/ exists t,
       fd_get "title" fd = Some t /\ trim t <> EmptyString
       /\ kv (submit e fd w) =
            fst (todos_post (uuid e) (serverNow e)
                   (Some (JObj (create_body (clientNow e) (trim t)))) (kv w)).
Proof.
  intros Hi. rewrite submit_kv, submit_requests.
  destruct (nonempty (trim <$> fd_get "title" fd)) eqn:Hblank.
  - destruct (fd_get "title" fd) as [t |] eqn:Hft; [| discriminate].
    assert (Hne : trim t <> EmptyString).
    { intros Hemp. simpl in Hblank. rewrite Hemp in Hblank. discriminate. }
    right. exists t. split; [reflexivity |]. split; [exact Hne |].
    rewrite (action_create_eq (fetchInternal e) (clientNow e) fd
               (kv w, requests w) t Hi Hft Hne).
    reflexivity.
  - left. rewrite action_create_blank; [| exact Hi | exact Hblank].
    repeat split.
Qed.

Lemma submit_delete_kv e fd w :
  fd_get "intent" fd = Some "delete" ->
  kv (submit e fd w) = kv w
  \/ exists id p,
       fd_get "id" fd = Some id /\ id <> EmptyString
       /\ param_of e id = Param p
       /\ kv (submit e fd w) = delete p (kv w).
Proof.
  intros Hi. rewrite submit_kv.
  destruct (nonempty (fd_get "id" fd)) eqn:Hid.
  - destruct (fd_get "id" fd) as [id |] eqn:Hfid; [| discriminate].
    assert (Hne : id <> EmptyString).
    { intros ->. discriminate. }
    rewrite (action_delete_eq (fetchInternal e) (clientNow e) fd
               (kv w, requests w) id Hi Hfid Hne).
    rewrite fetchInternal_eq. cbn [fst snd].
    destruct (served_cases e (DeleteTodo id) (kv w))
      as [-> | (p & Hp & ->)]; [left; reflexivity |].
    right. exists id, p. repeat split; assumption.
  - left. rewrite action_delete_no_id; [reflexivity | exact Hi | exact Hid].
Qed.

Lemma submit_create_titled e fd w :
  fd_get "intent" fd = Some "create" ->
  titled (kv w) -> titled (kv (submit e fd w)).
Proof.
  intros Hi Hkv.
  destruct (submit_create_kv e fd w Hi) as [(-> & _ & _) | (t & _ & Hne & ->)];
    [exact Hkv |].
  simpl. apply map_Forall_insert_2; [| exact Hkv].
  exists (trim t). split; [reflexivity | exact Hne].
Qed.

Lemma submit_update_titled e fd w :
  fd_get "intent" fd = Some "update" ->
  fd_get "title" fd <> Some EmptyString ->
  titled (kv w) -> titled (kv (submit e fd w)).
Proof.
  intros Hi Htitle Hkv.
  destruct (submit_update_kv e fd w Hi) as [-> | (id0 & id & _ & _ & _ & ->)];
    [exact Hkv |].
  unfold todos_put, kv_get.
  destruct (kv w !! id) as [existing |] eqn:Hex; simpl; [| exact Hkv].
  destruct (truthy existing); simpl; [| exact Hkv].
  apply map_Forall_insert_2; [| exact Hkv].
  destruct (Hkv id existing Hex) as (t0 & Ht0 & Hne0).
  destruct existing as [| | | | | m]; try discriminate. simpl in Ht0.
  simpl. rewrite merge_update_lookup. case_decide; [discriminate |].
  simpl. rewrite update_body_title.
  destruct (fd_get "title" fd) as [t |]; simpl.
  - exists t. split; [reflexivity | congruence].
  - exists t0. split; [exact Ht0 | exact Hne0].
Qed.

Lemma submit_delete_titled e fd w :
  fd_get "intent" fd = Some "delete" ->
  titled (kv w) -> titled (kv (submit e fd w)).
Proof.
  intros Hi Hkv.
  destruct (submit_delete_kv e fd w Hi) as [-> | (id0 & id & _ & _ & _ & ->)];
    [exact Hkv |].
  apply map_Forall_delete. exact Hkv.
Qed.

Lemma step_titled w ev : titled (kv w) -> titled (kv (step w ev)).
Proof.
  intros Hkv. destruct ev as [t | e | id c e | id t | t | e | | id e | i | i e];
    simpl; try exact Hkv.
  - unfold handleAddTodo.
    destruct (String.eqb (trim (newTodoTitle (page w))) EmptyString);
      [exact Hkv |].
    apply submit_create_titled; [reflexivity | exact Hkv].
  - unfold handleToggleComplete.
    apply submit_update_titled; [reflexivity | discriminate | exact Hkv].
  - unfold handleSaveEdit. destruct (editingTodoId (page w)) as [id |];
      [| exact Hkv].
    destruct (String.eqb id EmptyString); simpl; [exact Hkv |].
    destruct (String.eqb (trim (editTodoTitle (page w))) EmptyString) eqn:Ht;
      [exact Hkv |].
    apply String.eqb_neq in Ht.
    apply submit_update_titled; [reflexivity | | exact Hkv].
    simpl. congruence.
  - unfold handleDeleteTodo.
    destruct (nonempty (deletingTodoId (page w))); exact Hkv.
  - destruct (toasts w !! i) as [toast |]; [| exact Hkv].
    destruct (Toast.action toast) as [a |]; [| exact Hkv].
    destruct (Toast.onClick a). exact Hkv.
  - destruct (toasts w !! i) as [toast |]; [| exact Hkv].
    unfold handleDismiss.
    destruct (Toast.onDismiss toast) as [[id] |]; [| exact Hkv].
    simpl. destruct (deletingTodoIdRef (page w)) as [current |]; [| exact Hkv].
    destruct (String.eqb current id); [| exact Hkv].
    apply submit_delete_titled; [reflexivity | exact Hkv].
Qed.

Lemma run_titled evs : forall w, titled (kv w) -> titled (kv (run w evs)).
Proof.
  induction evs as [| ev evs IH]; intros w Hkv; [exact Hkv |].
  simpl. apply IH, step_titled, Hkv.
Qed.

(** C2, as stated, fails: the facade does not look at the title.  A POST
    whose body has no title stores a record without one, and a PUT whose body
    gives the empty title stores it. *)
Lemma facade_stores_untitled :
  titled ∅
  /\ status (snd (todos_post "todo-2" "2024-05-01T10:00:00.000Z"
                    (Some (JObj ∅)) ∅)) = 201
  /\ ~ titled (fst (todos_post "todo-2" "2024-05-01T10:00:00.000Z"
                      (Some (JObj ∅)) ∅))
  /\ titled store1
  /\ status (snd (todos_put "2024-05-01T10:00:05.000Z" "todo-1"
                    (Some untitle) store1)) = 200
  /\ ~ titled (fst (todos_put "2024-05-01T10:00:05.000Z" "todo-1"
                      (Some untitle) store1)).
Proof.
  split; [apply map_Forall_empty |]. split; [reflexivity |].
  split.
  { intros H. destruct (H "todo-2" _ (lookup_insert_eq _ _ _)) as (t & Ht & _).
    vm_compute in Ht. discriminate. }
  split.
  { apply map_Forall_singleton. exists "Buy milk".
    split; [reflexivity | discriminate]. }
  split; [reflexivity |].
  intros H. destruct (H "todo-1" _ (lookup_insert_eq _ _ _)) as (t & Ht & Hne).
  vm_compute in Ht. injection Ht as <-. apply Hne. reflexivity.
Qed.

(** C2, amended. Starting from a store whose records all have a non-empty
    string as title, every sequence of events of the page (adding, toggling,
    saving an edit, deleting, undoing, closing a toast), whatever the ids
    they name, leaves such a store; so does every create intent, whose blank
    title is rejected before any request, with the store and the record of
    requests unchanged.  The facade itself checks no title. *)
Theorem page_keeps_titles (w : World) (evs : list Event) :
  titled (kv w) ->
  titled (kv (run w evs))
  /\ (forall e fd,
        fd_get "intent" fd = Some "create" ->
        titled (kv (submit e fd w))
        /\ (nonempty (trim <$> fd_get "title" fd) = false ->
            kv (submit e fd w) = kv w
            /\ requests (submit e fd w) = requests w)).
Proof.
  intros Hkv. split; [apply run_titled, Hkv |].
  intros e fd Hi. split; [apply submit_create_titled; assumption |].
  intros Hblank. rewrite submit_kv, submit_requests.
  rewrite action_create_blank by assumption. split; reflexivity.
Qed.

Lemma page_keeps_titles_witness :
  titled (kv world1)
  /\ titled (kv (run world1
                   [TypeNewTodo "  Walk dog "; SubmitNewTodo env1;
                    ToggleComplete "todo-1" false env2])).
Proof.
  assert (H : titled (kv world1)).
  { apply map_Forall_singleton. exists "Buy milk".
    split; [reflexivity | discriminate]. }
  split; [exact H |].
  exact (proj1 (page_keeps_titles world1
                  [TypeNewTodo "  Walk dog "; SubmitNewTodo env1;
                   ToggleComplete "todo-1" false env2] H)).
Defined.

(** ** The action against the facade *)

Lemma facade_create e fd store log t :
  fd_get "intent" fd = Some "create" ->
  fd_get "title" fd = Some t ->
  trim t <> EmptyString ->
  action (fetchInternal e) (clientNow e) fd (store, log) =
    ((<[uuid e := JObj (new_record e (trim t))]> store,
      (log ++ [PostTodos (Some (JObj (create_body (clientNow e) (trim t))))])%list),
     ActCreate (JObj (new_record e (trim t)))).
Proof.
  intros Hi Ht Hne.
  rewrite (action_create_eq (fetchInternal e) (clientNow e) fd (store, log) t
             Hi Ht Hne).
  reflexivity.
Qed.

Lemma outcome_update_shape o :
  (exists d, outcome "update" updated o = ActUpdate d)
  \/ (exists m, outcome "update" updated o = ActError m).
Proof.
  destruct o as [r | e]; simpl; [| right; eexists; reflexivity].
  destruct (ok r); [| right; eexists; reflexivity].
  unfold updated. destruct (body r); [left | right]; eexists; reflexivity.
Qed.

(** An update or a delete intent, whatever its id: the request is served by
    the routes. *)
Lemma served_update e fd store log id :
  fd_get "intent" fd = Some "update" ->
  fd_get "id" fd = Some id ->
  id <> EmptyString ->
  let req := PutTodo id (Some (JObj (update_body id (fd_get "title" fd)
                                       (fd_get "completed" fd)))) in
  action (fetchInternal e) (clientNow e) fd (store, log) =
    ((fst (served e req store), (log ++ [req])%list),
     outcome "update" updated (Ok (snd (served e req store)))).
Proof.
  intros Hi Hid Hne req. subst req.
  rewrite (action_update_eq (fetchInternal e) (clientNow e) fd (store, log) id
             Hi Hid Hne).
  reflexivity.
Qed.

Lemma served_delete e fd store log id :
  fd_get "intent" fd = Some "delete" ->
  fd_get "id" fd = Some id ->
  id <> EmptyString ->
  action (fetchInternal e) (clientNow e) fd (store, log) =
    ((fst (served e (DeleteTodo id) store), (log ++ [DeleteTodo id])%list),
     outcome "delete" (fun _ => ActDelete id)
       (Ok (snd (served e (DeleteTodo id) store)))).
Proof.
  intros Hi Hid Hne.
  rewrite (action_delete_eq (fetchInternal e) (clientNow e) fd (store, log) id
             Hi Hid Hne).
  reflexivity.
Qed.

(** With a plain id the request reaches the handler of [/:id] for that
    id. *)
Lemma facade_update e fd store log id :
  fd_get "intent" fd = Some "update" ->
  fd_get "id" fd = Some id ->
  plain_segment id = true ->
  let b := Some (JObj (update_body id (fd_get "title" fd)
                         (fd_get "completed" fd))) in
  action (fetchInternal e) (clientNow e) fd (store, log) =
    ((fst (todos_put (serverNow e) id b store), (log ++ [PutTodo id b])%list),
     outcome "update" updated (Ok (snd (todos_put (serverNow e) id b store)))).
Proof.
  intros Hi Hid Hplain b. subst b.
  rewrite (served_update e fd store log id Hi Hid
             (plain_segment_nonempty id Hplain)).
  cbn zeta. rewrite (served_put_plain e id _ store Hplain). reflexivity.
Qed.

Lemma facade_delete e fd store log id :
  fd_get "intent" fd = Some "delete" ->
  fd_get "id" fd = Some id ->
  plain_segment id = true ->
  action (fetchInternal e) (clientNow e) fd (store, log) =
    ((delete id store, (log ++ [DeleteTodo id])%list), ActDelete id).
Proof.
  intros Hi Hid Hplain.
  rewrite (served_delete e fd store log id Hi Hid
             (plain_segment_nonempty id Hplain)).
  rewrite (served_delete_plain e id store Hplain). reflexivity.
Qed.

(** ** C4: create *)

(** C4, as stated, fails for a title that is not empty but blank: the title
    is trimmed before it is tested, the intent resolves to the error tag and
    no record is added to the list or to the store. *)
Lemma blank_title_adds_nothing :
  fd_get "intent" blank_form = Some "create"
  /\ fd_get "title" blank_form = Some "   "
  /\ "   " <> EmptyString
  /\ todos (page (submit env1 blank_form world1)) = todos (page world1)
  /\ kv (submit env1 blank_form world1) = kv world1
  /\ requests (submit env1 blank_form world1) = requests world1.
Proof.
  split; [reflexivity |]. split; [reflexivity |]. split; [discriminate |].
  split; [reflexivity |]. split; reflexivity.
Qed.

(** C4, amended. For every create intent whose title is not empty once
    trimmed, the submission makes one POST and appends exactly one record to
    the list of the page: its title is the trimmed input, its completed flag
    is false, its id is the one the worker generated and its creation time
    is the worker's; the same record is stored under that id. *)
Theorem create_adds_one_record (e : Env) (fd : FormData) (w : World)
    (t : string) :
  fd_get "intent" fd = Some "create" ->
  fd_get "title" fd = Some t ->
  trim t <> EmptyString ->
  let w' := submit e fd w in
  exists record,
    todos (page w') = (todos (page w) ++ [JObj record])%list
    /\ length (todos (page w')) = S (length (todos (page w)))
    /\ record !! "title" = Some (JStr (trim t))
    /\ record !! "completed" = Some (JBool false)
    /\ record !! "id" = Some (JStr (uuid e))
    /\ record !! "createdAt" = Some (JStr (serverNow e))
    /\ kv w' = <[uuid e := JObj record]> (kv w)
    /\ requests w' =
         (requests w
          ++ [PostTodos (Some (JObj (create_body (clientNow e) (trim t))))])%list.
Proof.
  intros Hi Ht Hne w'. subst w'. unfold submit.
  rewrite (facade_create e fd (kv w) (requests w) t Hi Ht Hne). simpl.
  exists (new_record e (trim t)).
  split; [reflexivity |].
  split; [rewrite length_app; simpl; lia |].
  repeat split.
Qed.

Lemma create_adds_one_record_witness :
  fd_get "intent" [("intent", "create"); ("title", "  Walk dog ")]
    = Some "create"
  /\ trim "  Walk dog " = "Walk dog"
  /\ exists record,
       todos (page (submit env1 [("intent", "create"); ("title", "  Walk dog ")]
                      world1))
         = [JObj milk; JObj record]
       /\ record !! "title" = Some (JStr "Walk dog").
Proof.
  split; [reflexivity |]. split; [reflexivity |].
  destruct (create_adds_one_record env1
              [("intent", "create"); ("title", "  Walk dog ")] world1
              "  Walk dog " eq_refl eq_refl)
    as (record & Hlist & _ & Htitle & _).
  { vm_compute. discriminate. }
  exists record. split; [exact Hlist | exact Htitle].
Defined.

(** ** C6: toggling the completed flag *)

Lemma not_earlier_than_empty p : ~ earlier p EmptyString.
Proof.
  unfold earlier, String.ltb. destruct p; simpl; discriminate.
Qed.

(** C6, as stated, fails: the new [updatedAt] is the worker's clock reading,
    whatever the record held before.  A todo created and toggled at the same
    reading gets an [updatedAt] equal to its [createdAt], not a later one;
    and a todo toggled by a worker whose clock reads 10:00:05, then toggled
    back by one whose clock reads 10:00:00, gets an earlier [updatedAt]. *)
Lemma toggle_at_same_instant :
  last_stamp milk = Some (JStr "2024-05-01T10:00:00.000Z")
  /\ serverNow env1 = "2024-05-01T10:00:00.000Z"
  /\ (exists r,
        kv (submit env1 toggle_form world1) !! "todo-1" = Some (JObj r)
        /\ r !! "completed" = Some (JBool true)
        /\ last_stamp r = Some (JStr "2024-05-01T10:00:00.000Z")
        /\ ~ earlier "2024-05-01T10:00:00.000Z" "2024-05-01T10:00:00.000Z")
  /\ (exists r1 r2,
        kv (submit env2 toggle_form world1) !! "todo-1" = Some (JObj r1)
        /\ last_stamp r1 = Some (JStr "2024-05-01T10:00:05.000Z")
        /\ kv (submit env1 untoggle_form (submit env2 toggle_form world1))
             !! "todo-1" = Some (JObj r2)
        /\ last_stamp r2 = Some (JStr "2024-05-01T10:00:00.000Z")
        /\ ~ earlier "2024-05-01T10:00:05.000Z" "2024-05-01T10:00:00.000Z").
Proof.
  split; [reflexivity |]. split; [reflexivity |]. split.
  - eexists. split; [vm_compute; reflexivity |].
    split; [reflexivity |]. split; [reflexivity |].
    unfold earlier. vm_compute. discriminate.
  - do 2 eexists. split; [vm_compute; reflexivity |].
    split; [reflexivity |]. split; [vm_compute; reflexivity |].
    split; [reflexivity |].
    unfold earlier. vm_compute. discriminate.
Qed.

(** C6, amended. An update intent that supplies no title, on an existing
    record whose id is plain (so that the PUT reaches the handler for that
    id), leaves the title of the record as it was, sets the completed flag
    it supplies and sets [updatedAt] to the worker's clock reading; the time
    of the record becomes later than its previous [updatedAt] (or
    [createdAt]) whenever that reading is later than it, and nothing else
    orders the two. *)
Theorem toggle_keeps_title (e : Env) (fd : FormData) (w : World)
    (id : string) (existing : gmap string json) :
  fd_get "intent" fd = Some "update" ->
  fd_get "id" fd = Some id ->
  plain_segment id = true ->
  fd_get "title" fd = None ->
  kv w !! id = Some (JObj existing) ->
  exists r,
    kv (submit e fd w) !! id = Some (JObj r)
    /\ r !! "title" = existing !! "title"
    /\ r !! "createdAt" = existing !! "createdAt"
    /\ r !! "updatedAt" = Some (JStr (serverNow e))
    /\ (forall c, fd_get "completed" fd = Some c ->
          r !! "completed" = Some (JBool (String.eqb c "true")))
    /\ (forall p, last_stamp existing = Some (JStr p) ->
          earlier p (serverNow e) ->
          last_stamp r = Some (JStr (serverNow e))
          /\ exists u, last_stamp r = Some (JStr u) /\ earlier p u).
Proof.
  intros Hi Hid Hne Htitle Hex. rewrite submit_kv.
  rewrite (facade_update e fd (kv w) (requests w) id Hi Hid Hne). simpl.
  unfold todos_put, kv_get. rewrite Hex. simpl. rewrite Htitle.
  eexists. split; [apply lookup_insert_eq |].
  assert (Hup : merge_update (serverNow e) (JObj existing)
                  (JObj (update_body id None (fd_get "completed" fd)))
                !! "updatedAt" = Some (JStr (serverNow e))).
  { rewrite merge_update_lookup. case_decide; [reflexivity | contradiction]. }
  split; [| split; [| split; [exact Hup | split]]].
  - rewrite merge_update_lookup. case_decide; [discriminate |]. simpl.
    rewrite update_body_title. reflexivity.
  - rewrite merge_update_lookup. case_decide; [discriminate |]. simpl.
    rewrite update_body_lookup_other by discriminate. reflexivity.
  - intros c Hc. rewrite merge_update_lookup. case_decide; [discriminate |].
    simpl. rewrite Hc. reflexivity.
  - intros p Hp Hlater.
    assert (Hstamp : last_stamp
                       (merge_update (serverNow e) (JObj existing)
                          (JObj (update_body id None (fd_get "completed" fd))))
                     = Some (JStr (serverNow e))).
    { unfold last_stamp. rewrite Hup. simpl.
      destruct (String.eqb (serverNow e) EmptyString) eqn:Hemp;
        [| reflexivity].
      apply String.eqb_eq in Hemp. rewrite Hemp in Hlater.
      destruct (not_earlier_than_empty p Hlater). }
    split; [exact Hstamp |].
    exists (serverNow e). split; [exact Hstamp | exact Hlater].
Qed.

Lemma toggle_keeps_title_witness :
  fd_get "title" toggle_form = None
  /\ plain_segment "todo-1" = true
  /\ kv world1 !! "todo-1" = Some (JObj milk)
  /\ earlier "2024-05-01T10:00:00.000Z" (serverNow env2)
  /\ exists r,
       kv (submit env2 toggle_form world1) !! "todo-1" = Some (JObj r)
       /\ r !! "title" = Some (JStr "Buy milk")
       /\ last_stamp r = Some (JStr "2024-05-01T10:00:05.000Z").
Proof.
  split; [reflexivity |]. split; [reflexivity |]. split; [reflexivity |].
  assert (Hlater : earlier "2024-05-01T10:00:00.000Z" (serverNow env2))
    by (vm_compute; reflexivity).
  split; [exact Hlater |].
  destruct (toggle_keeps_title env2 toggle_form world1 "todo-1" milk
              eq_refl eq_refl)
    as (r & Hr & Htitle & _ & _ & _ & Hstamp);
    [reflexivity | reflexivity | reflexivity |].
  exists r. split; [exact Hr |]. split; [exact Htitle |].
  exact (proj1 (Hstamp "2024-05-01T10:00:00.000Z" eq_refl Hlater)).
Defined.

(** ** One submission, summarised *)

Lemma action_facade_cases e fd store log :
  let r := action (fetchInternal e) (clientNow e) fd (store, log) in
  (exists m, r = ((store, log), ActError m))
  \/ (exists t,
        fd_get "intent" fd = Some "create"
        /\ r = ((<[uuid e := JObj (new_record e (trim t))]> store,
                 (log ++ [PostTodos
                            (Some (JObj (create_body (clientNow e) (trim t))))])%list),
                ActCreate (JObj (new_record e (trim t)))))
  \/ (exists id b,
        fd_get "intent" fd = Some "update"
        /\ r = ((fst (served e (PutTodo id b) store),
                 (log ++ [PutTodo id b])%list),
                outcome "update" updated
                  (Ok (snd (served e (PutTodo id b) store)))))
  \/ (exists id,
        fd_get "intent" fd = Some "delete"
        /\ fd_get "id" fd = Some id /\ id <> EmptyString
        /\ r = ((fst (served e (DeleteTodo id) store),
                 (log ++ [DeleteTodo id])%list),
                outcome "delete" (fun _ => ActDelete id)
                  (Ok (snd (served e (DeleteTodo id) store))))).
Proof.
  intros r. subst r.
  destruct (decide (fd_get "intent" fd = Some "create")) as [Hc | Hc].
  { destruct (nonempty (trim <$> fd_get "title" fd)) eqn:Ht.
    - destruct (fd_get "title" fd) as [t |] eqn:Hft; [| discriminate].
      right; left. exists t. split; [exact Hc |].
      apply facade_create; [exact Hc | exact Hft |].
      intros Hemp. simpl in Ht. rewrite Hemp in Ht. discriminate.
    - left. eexists. apply action_create_blank; assumption. }
  destruct (decide (fd_get "intent" fd = Some "update")) as [Hu | Hu].
  { destruct (nonempty (fd_get "id" fd)) eqn:Hid.
    - destruct (fd_get "id" fd) as [id |] eqn:Hfid; [| discriminate].
      right; right; left. do 2 eexists. split; [exact Hu |].
      apply (served_update e fd store log id Hu Hfid).
      intros ->. discriminate.
    - left. eexists. apply action_update_no_id; assumption. }
  destruct (decide (fd_get "intent" fd = Some "delete")) as [Hd | Hd].
  { destruct (nonempty (fd_get "id" fd)) eqn:Hid.
    - destruct (fd_get "id" fd) as [id |] eqn:Hfid; [| discriminate].
      assert (Hne : id <> EmptyString) by (intros ->; discriminate).
      right; right; right. exists id.
      split; [exact Hd |]. split; [reflexivity |]. split; [exact Hne |].
      apply (served_delete e fd store log id Hd Hfid Hne).
    - left. eexists. apply action_delete_no_id; assumption. }
  left. apply action_unknown; assumption.
Qed.

Lemma outcome_delete_shape id o :
  outcome "delete" (fun _ => ActDelete id) o = ActDelete id
  \/ (exists m, outcome "delete" (fun _ => ActDelete id) o = ActError m).
Proof.
  destruct o as [r | e]; simpl; [| right; eexists; reflexivity].
  destruct (ok r); [left; reflexivity | right; eexists; reflexivity].
Qed.

(** The page and the queue after the effect depend on the page and the queue
    before it only. *)
Lemma actionEffect_page e a w1 w2 :
  page w1 = page w2 -> toasts w1 = toasts w2 ->
  page (actionEffect e a w1) = page (actionEffect e a w2)
  /\ toasts (actionEffect e a w1) = toasts (actionEffect e a w2).
Proof.
  intros Hp Ht. destruct a; simpl; rewrite ?Hp, ?Ht; split; reflexivity.
Qed.



(** What a submission leaves of the page besides the list, and of the queue,
    is what the effect on the result of its action leaves. *)
Lemma submit_pending e fd w :
  let a := snd (action (fetchInternal e) (clientNow e) fd
                  (kv w, requests w)) in
  deletingTodoIdRef (page (submit e fd w))
    = deletingTodoIdRef (page (actionEffect e a w))
  /\ deletingTodoId (page (submit e fd w))
     = deletingTodoId (page (actionEffect e a w))
  /\ editingTodoId (page (submit e fd w))
     = editingTodoId (page (actionEffect e a w))
  /\ toasts (submit e fd w) = toasts (actionEffect e a w).
Proof.
  intros a. subst a. unfold submit.
  destruct (snd (action (fetchInternal e) (clientNow e) fd
                   (kv w, requests w))); repeat split.
Qed.


(** Only a delete intent resolves to the delete tag, for the id of its
    form; with a plain id it does. *)
Lemma submit_result e fd w :
  let a := snd (action (fetchInternal e) (clientNow e) fd
                  (kv w, requests w)) in
  (forall id, a = ActDelete id ->
     fd_get "intent" fd = Some "delete" /\ fd_get "id" fd = Some id)
  /\ (forall id, fd_get "intent" fd = Some "delete" ->
        fd_get "id" fd = Some id -> plain_segment id = true ->
        a = ActDelete id).
Proof.
  intros a. subst a. split.
  - intros id Ha.
    destruct (action_facade_cases e fd (kv w) (requests w))
      as [[m Hr] | [(t & _ & Hr) | [(id0 & b & _ & Hr) | (id0 & Hi & Hid & _ & Hr)]]];
      rewrite Hr in Ha; cbn [snd] in Ha; try discriminate.
    + destruct (outcome_update_shape
                  (Ok (snd (served e (PutTodo id0 b) (kv w)))))
        as [[d Hd] | [m Hm]]; congruence.
    + destruct (outcome_delete_shape id0
                  (Ok (snd (served e (DeleteTodo id0) (kv w)))))
        as [Hd | [m Hm]]; [| congruence].
      rewrite Hd in Ha. injection Ha as <-. split; assumption.
  - intros id Hi Hid Hplain.
    rewrite (facade_delete e fd (kv w) (requests w) id Hi Hid Hplain).
    reflexivity.
Qed.



(** ** The undo window *)
















(** A deletion that is accepted only opens the window. *)
Lemma handleDeleteTodo_accepted id e w :
  nonempty (deletingTodoId (page w)) = false ->
  handleDeleteTodo id e w =
    with_toasts (fun prev => (prev ++ [delete_toast id e])%list)
      (with_page (setDeleting (Some id)) w).
Proof.
  intros Hfree. unfold handleDeleteTodo. rewrite Hfree. reflexivity.
Qed.







(** ** C1: the deferred delete *)




(** * Further properties of the code *)

(** ** The listing of the facade *)

Lemma list_item_record kv key value :
  kv !! key = Some value -> truthy value = true ->
  list_item kv key = Some (JObj (<["id" := JStr key]> (own_props value))).
Proof.
  intros Hv Ht. unfold list_item, kv_get. rewrite Hv. simpl. rewrite Ht.
  reflexivity.
Qed.

Lemma list_item_missing kv key : kv !! key = None -> list_item kv key = None.
Proof. intros Hv. unfold list_item, kv_get. rewrite Hv. reflexivity. Qed.

Lemma list_item_id kv key item :
  list_item kv key = Some item -> prop "id" item = Some (JStr key).
Proof.
  unfold list_item. destruct (truthy (kv_get kv key)); [| discriminate].
  intros [= <-]. simpl. apply lookup_insert_eq.
Qed.

Lemma omap_list_item_ids kv keys :
  (forall k, k ∈ keys -> is_Some (list_item kv k)) ->
  map (prop "id") (omap (list_item kv) keys)
    = map (fun k => Some (JStr k)) keys.
Proof.
  induction keys as [| k keys IH]; intros Hall; [reflexivity |].
  destruct (Hall k) as [item Hitem]; [left |]. simpl. rewrite Hitem. simpl.
  rewrite (list_item_id kv k item Hitem). f_equal.
  apply IH. intros k' Hk'. apply Hall. right. exact Hk'.
Qed.

(** On a store of records, the listing reports one item per key, in the
    order of the keys, and each item carries as [id] the key it is stored
    under, whatever [id] the stored value holds. *)
Theorem listing_reports_keys (keys : list string) (kv : gmap string json) :
  store_records kv ->
  lists_store keys kv ->
  status (todos_get keys kv) = 200
  /\ map (prop "id") (items (todos_get keys kv))
       = map (fun k => Some (JStr k)) keys
  /\ length (items (todos_get keys kv)) = size kv
  /\ forall key value,
       kv !! key = Some value ->
       JObj (<["id" := JStr key]> (own_props value))
         ∈ items (todos_get keys kv).
Proof.
  intros Hrec [Hnodup Hkeys].
  assert (Hall : forall k, k ∈ keys -> is_Some (list_item kv k)).
  { intros k Hk. apply Hkeys in Hk. destruct Hk as [v Hv].
    rewrite (list_item_record kv k v Hv (store_records_truthy kv k v Hrec Hv)).
    eexists. reflexivity. }
  assert (Hids : map (prop "id") (omap (list_item kv) keys)
                 = map (fun k => Some (JStr k)) keys)
    by (apply omap_list_item_ids; exact Hall).
  split; [reflexivity |]. split; [exact Hids |]. split.
  - simpl.
    transitivity (length (map (prop "id") (omap (list_item kv) keys)));
      [rewrite length_map; reflexivity |].
    rewrite Hids, length_map.
    rewrite <- (size_dom kv).
    assert (Hperm : keys ≡ₚ elements (dom kv)).
    { apply NoDup_Permutation; [exact Hnodup | apply NoDup_elements |].
      intros k. rewrite Hkeys, elem_of_elements, elem_of_dom. reflexivity. }
    rewrite Hperm. reflexivity.
  - intros key value Hv. simpl. apply list_elem_of_omap. exists key.
    split; [apply Hkeys; eexists; exact Hv |].
    apply list_item_record; [exact Hv |].
    exact (store_records_truthy kv key value Hrec Hv).
Qed.

Lemma lists_store_store1 : lists_store ["todo-1"] store1.
Proof.
  split; [apply NoDup_singleton |].
  intros k. rewrite list_elem_of_singleton. unfold store1. split.
  - intros ->. rewrite lookup_singleton_eq. eexists. reflexivity.
  - intros [v Hv]. apply lookup_singleton_Some in Hv. symmetry. apply Hv.
Qed.

Lemma listing_reports_keys_witness :
  store_records store1
  /\ lists_store ["todo-1"] store1
  /\ map (prop "id") (items (todos_get ["todo-1"] store1))
       = [Some (JStr "todo-1")].
Proof.
  split; [exact store_records_store1 |].
  split; [exact lists_store_store1 |].
  exact (proj1 (proj2 (listing_reports_keys ["todo-1"] store1
                         store_records_store1 lists_store_store1))).
Defined.

(** The record a POST answers with is the one a later listing shows under
    the generated id, with the completed flag false and the worker's creation
    time. *)
Theorem post_then_listed (uuid now : string) (todo : json)
    (kv : gmap string json) (keys : list string) :
  uuid ∈ keys ->
  let r := todos_post uuid now (Some todo) kv in
  exists item,
    body (snd r) = Some item
    /\ status (snd r) = 201
    /\ item ∈ items (todos_get keys (fst r))
    /\ prop "id" item = Some (JStr uuid)
    /\ prop "completed" item = Some (JBool false)
    /\ prop "createdAt" item = Some (JStr now).
Proof.
  intros Hin r. subst r. simpl. eexists. split; [reflexivity |].
  split; [reflexivity |]. split; [| split; [| split]].
  - apply list_elem_of_omap. exists uuid. split; [exact Hin |].
    erewrite list_item_record; [| apply lookup_insert_eq | reflexivity].
    simpl. f_equal. f_equal. apply insert_id.
    rewrite !lookup_insert_ne by discriminate. apply lookup_insert_eq.
  - simpl. rewrite !lookup_insert_ne by discriminate. apply lookup_insert_eq.
  - simpl. rewrite lookup_insert_ne by discriminate. apply lookup_insert_eq.
  - simpl. apply lookup_insert_eq.
Qed.

Lemma post_then_listed_witness :
  "todo-2" ∈ ["todo-1"; "todo-2"]
  /\ exists item,
       body (snd (todos_post "todo-2" "2024-05-01T10:00:05.000Z"
                    (Some (JObj {[ "title" := JStr "Walk dog" ]})) store1))
         = Some item
       /\ item ∈ items
            (todos_get ["todo-1"; "todo-2"]
               (fst (todos_post "todo-2" "2024-05-01T10:00:05.000Z"
                       (Some (JObj {[ "title" := JStr "Walk dog" ]}))
                       store1))).
Proof.
  assert (Hin : "todo-2" ∈ ["todo-1"; "todo-2"]).
  { right. left. }
  split; [exact Hin |].
  destruct (post_then_listed "todo-2" "2024-05-01T10:00:05.000Z"
              (JObj {[ "title" := JStr "Walk dog" ]}) store1
              ["todo-1"; "todo-2"] Hin)
    as (item & Hbody & _ & Hitem & _).
  exists item. split; [exact Hbody | exact Hitem].
Defined.

(** After a DELETE no listing shows an item under the deleted id, whatever
    keys the listing is asked for. *)
Theorem deleted_not_listed (id : string) (kv : gmap string json)
    (keys : list string) (item : json) :
  item ∈ items (todos_get keys (fst (todos_delete id kv))) ->
  prop "id" item <> Some (JStr id).
Proof.
  simpl. intros Hin. apply list_elem_of_omap in Hin.
  destruct Hin as (key & _ & Hitem).
  rewrite (list_item_id _ key item Hitem). intros [= ->].
  rewrite list_item_missing in Hitem by apply lookup_delete_eq.
  discriminate.
Qed.

Lemma deleted_not_listed_witness :
  JObj (<["id" := JStr "todo-1"]> milk)
    ∈ items (todos_get ["todo-1"; "todo-5"]
               (fst (todos_delete "todo-5" store1)))
  /\ prop "id" (JObj (<["id" := JStr "todo-1"]> milk))
       <> Some (JStr "todo-5").
Proof.
  assert (Hin : JObj (<["id" := JStr "todo-1"]> milk)
                  ∈ items (todos_get ["todo-1"; "todo-5"]
                             (fst (todos_delete "todo-5" store1)))).
  { vm_compute. left. }
  split; [exact Hin |].
  exact (deleted_not_listed "todo-5" store1 ["todo-1"; "todo-5"] _ Hin).
Defined.

(** ** Direct requests to the facade *)

(** A POST decides [id], [completed] and [createdAt] itself, whatever the
    body says, keeps every other property of the body and touches no other
    record; under a fresh id the store grows by one record, and deleting that
    id gives the store back. *)
Theorem post_assigns_server_fields (uuid now : string) (todo : json)
    (kv : gmap string json) :
  let r := todos_post uuid now (Some todo) kv in
  exists record,
    fst r !! uuid = Some (JObj record)
    /\ record !! "id" = Some (JStr uuid)
    /\ record !! "completed" = Some (JBool false)
    /\ record !! "createdAt" = Some (JStr now)
    /\ (forall k, k <> "id" -> k <> "completed" -> k <> "createdAt" ->
          record !! k = own_props todo !! k)
    /\ (forall other, other <> uuid -> fst r !! other = kv !! other)
    /\ (kv !! uuid = None ->
        size (fst r) = S (size kv)
        /\ fst (todos_delete uuid (fst r)) = kv).
Proof.
  intros r. subst r. simpl. eexists. split; [apply lookup_insert_eq |].
  split; [rewrite !lookup_insert_ne by discriminate; apply lookup_insert_eq |].
  split; [rewrite lookup_insert_ne by discriminate; apply lookup_insert_eq |].
  split; [apply lookup_insert_eq |].
  split; [intros k H1 H2 H3; rewrite !lookup_insert_ne by congruence;
          reflexivity |].
  split; [intros other Hother; apply lookup_insert_ne; congruence |].
  intros Hfresh. split; [apply map_size_insert_None; exact Hfresh |].
  rewrite delete_insert_eq. apply delete_id. exact Hfresh.
Qed.

Lemma kv_get_after_put now id b kv other :
  other <> id -> kv_get (fst (todos_put now id b kv)) other = kv_get kv other.
Proof.
  intros Hne. unfold todos_put. destruct b as [updates |]; [| reflexivity].
  destruct (truthy (kv_get kv id)); simpl; [| reflexivity].
  unfold kv_get. rewrite lookup_insert_ne by congruence. reflexivity.
Qed.

Lemma kv_get_after_delete id kv other :
  other <> id -> kv_get (fst (todos_delete id kv)) other = kv_get kv other.
Proof.
  intros Hne. unfold kv_get. simpl. rewrite lookup_delete_ne by congruence.
  reflexivity.
Qed.

Lemma todos_put_fst now id b kv :
  fst (todos_put now id b kv) =
    match b with
    | Some updates =>
        if truthy (kv_get kv id)
        then <[id := JObj (merge_update now (kv_get kv id) updates)]> kv
        else kv
    | None => kv
    end.
Proof.
  unfold todos_put. destruct b as [updates |]; [| reflexivity].
  destruct (truthy (kv_get kv id)); reflexivity.
Qed.

Lemma todos_put_snd now id b kv kv' :
  kv_get kv' id = kv_get kv id ->
  snd (todos_put now id b kv') = snd (todos_put now id b kv).
Proof.
  intros Hget. unfold todos_put. destruct b as [updates |]; [| reflexivity].
  rewrite Hget. destruct (truthy (kv_get kv id)); reflexivity.
Qed.

(** Updates of two different ids do not see each other: either order leaves
    the same store, and each answers what it would have answered alone; the
    same holds for an update next to the deletion of another id. *)
Theorem requests_on_distinct_ids_commute (now1 now2 id1 id2 : string)
    (b1 b2 : option json) (kv : gmap string json) :
  id1 <> id2 ->
  fst (todos_put now1 id1 b1 (fst (todos_put now2 id2 b2 kv)))
    = fst (todos_put now2 id2 b2 (fst (todos_put now1 id1 b1 kv)))
  /\ snd (todos_put now1 id1 b1 (fst (todos_put now2 id2 b2 kv)))
       = snd (todos_put now1 id1 b1 kv)
  /\ fst (todos_put now1 id1 b1 (fst (todos_delete id2 kv)))
       = fst (todos_delete id2 (fst (todos_put now1 id1 b1 kv)))
  /\ snd (todos_put now1 id1 b1 (fst (todos_delete id2 kv)))
       = snd (todos_put now1 id1 b1 kv).
Proof.
  intros Hne.
  assert (Hne' : id2 <> id1) by congruence.
  split; [| split; [| split]].
  - rewrite (todos_put_fst now1 id1 b1 (fst (todos_put now2 id2 b2 kv))).
    rewrite (todos_put_fst now2 id2 b2 (fst (todos_put now1 id1 b1 kv))).
    rewrite (kv_get_after_put now2 id2 b2 kv id1 Hne).
    rewrite (kv_get_after_put now1 id1 b1 kv id2 Hne').
    rewrite !todos_put_fst.
    destruct b1 as [u1 |], b2 as [u2 |]; try reflexivity.
    destruct (truthy (kv_get kv id1)), (truthy (kv_get kv id2));
      try reflexivity.
    apply insert_insert_ne. exact Hne.
  - apply todos_put_snd. apply kv_get_after_put. exact Hne.
  - rewrite !todos_put_fst. rewrite (kv_get_after_delete id2 kv id1 Hne).
    destruct b1 as [u1 |]; [| reflexivity].
    destruct (truthy (kv_get kv id1)); [| reflexivity].
    simpl. symmetry. apply delete_insert_ne. exact Hne'.
  - apply todos_put_snd. apply kv_get_after_delete. exact Hne.
Qed.

Lemma requests_on_distinct_ids_commute_witness :
  "todo-1" <> "todo-9"
  /\ snd (todos_put "2024-05-01T10:00:05.000Z" "todo-1"
            (Some (JObj {[ "completed" := JBool true ]}))
            (fst (todos_delete "todo-9" store1)))
     = snd (todos_put "2024-05-01T10:00:05.000Z" "todo-1"
              (Some (JObj {[ "completed" := JBool true ]})) store1).
Proof.
  assert (Hne : "todo-1" <> "todo-9") by discriminate.
  split; [exact Hne |].
  exact (proj2 (proj2 (proj2
           (requests_on_distinct_ids_commute "2024-05-01T10:00:05.000Z"
              "2024-05-01T10:00:05.000Z" "todo-1" "todo-9"
              (Some (JObj {[ "completed" := JBool true ]})) None store1
              Hne)))).
Defined.

(** An update after the deletion of its id answers 404 and changes nothing,
    and a deletion after an update leaves what the deletion alone leaves: a
    deleted record is not brought back by updates. *)
Theorem put_after_delete (now id : string) (updates : json)
    (b : option json) (kv : gmap string json) :
  todos_put now id (Some updates) (fst (todos_delete id kv))
    = (delete id kv, c_json (error_body "TODO not found") 404)
  /\ fst (todos_delete id (fst (todos_put now id b kv)))
       = fst (todos_delete id kv).
Proof.
  split.
  - unfold todos_put, kv_get. simpl. rewrite lookup_delete_eq. reflexivity.
  - rewrite todos_put_fst. simpl. destruct b as [u |]; [| reflexivity].
    destruct (truthy (kv_get kv id)); [| reflexivity].
    apply delete_insert_eq.
Qed.


(** ** The mock data route *)

Section MockDataFacts.
Import MockData.

Lemma in_class_not_dot c : in_class c = true -> c <> "."%char.
Proof. intros Hc ->. vm_compute in Hc. discriminate. Qed.

Lemma in_class_not_slash c : in_class c = true -> c <> "/"%char.
Proof. intros Hc ->. vm_compute in Hc. discriminate. Qed.

Lemma skip_class_split s :
  exists w, s = w ++ skip_class s /\ all_in_class w = true.
Proof.
  induction s as [| c s IH]; [exists EmptyString; split; reflexivity |].
  simpl. destruct (in_class c) eqn:Hc.
  - destruct IH as (w & Hw & Hall). exists (String c w). split.
    + rewrite Hw at 1. reflexivity.
    + simpl. rewrite Hc, Hall. reflexivity.
  - exists EmptyString. split; reflexivity.
Qed.

Lemma skip_class_app w t :
  all_in_class w = true -> skip_class (w ++ t) = skip_class t.
Proof.
  induction w as [| c w IH]; intros Hall; [reflexivity |].
  simpl in *. apply andb_true_iff in Hall. destruct Hall as [Hc Hw].
  rewrite Hc. apply IH. exact Hw.
Qed.

Lemma append_empty_r (s : string) : s ++ EmptyString = s.
Proof.
  induction s as [| c s IH]; [reflexivity |].
  change (String c (s ++ EmptyString) = String c s). rewrite IH. reflexivity.
Qed.

Lemma word_cons stem :
  word stem <->
  exists c w, stem = String c w /\ in_class c = true /\ all_in_class w = true.
Proof.
  unfold word. split.
  - intros [Hne Hall]. destruct stem as [| c w]; [contradiction |].
    simpl in Hall. apply andb_true_iff in Hall. exists c, w.
    split; [reflexivity | exact Hall].
  - intros (c & w & -> & Hc & Hw). split; [discriminate |].
    simpl. rewrite Hc, Hw. reflexivity.
Qed.

(** The test of the file name accepts exactly the non-empty words of
    letters, digits and hyphens, with or without the suffix [.json]. *)
Theorem filename_ok_iff (filename : string) :
  filename_ok filename = true <->
  exists stem, word stem /\ (filename = stem \/ filename = stem ++ ".json").
Proof.
  split.
  - destruct filename as [| c rest]; [discriminate |]. simpl.
    intros H. apply andb_true_iff in H. destruct H as [Hc Hrest].
    destruct (skip_class_split rest) as (w & Hw & Hall).
    exists (String c w). split.
    { apply word_cons. exists c, w. repeat split; assumption. }
    apply orb_true_iff in Hrest. destruct Hrest as [He | He];
      apply String.eqb_eq in He; rewrite He in Hw.
    + left. rewrite append_empty_r in Hw. rewrite Hw. reflexivity.
    + right. rewrite Hw. reflexivity.
  - intros (stem & Hword & Hf). apply word_cons in Hword.
    destruct Hword as (c & w & -> & Hc & Hw).
    destruct Hf as [-> | ->]; simpl; rewrite Hc; simpl.
    + rewrite <- (append_empty_r w), skip_class_app by exact Hw.
      reflexivity.
    + rewrite skip_class_app by exact Hw. reflexivity.
Qed.

Lemma endsWith_app suffix pre : endsWith suffix (pre ++ suffix) = true.
Proof.
  induction pre as [| c pre IH]; simpl.
  - destruct suffix; simpl; rewrite ?Ascii.eqb_refl, ?String.eqb_refl;
      reflexivity.
  - rewrite IH. apply orb_true_r.
Qed.

Lemma endsWith_class s :
  all_in_class s = true -> endsWith ".json" s = false.
Proof.
  induction s as [| c s IH]; intros Hall; [reflexivity |].
  simpl in Hall. apply andb_true_iff in Hall. destruct Hall as [Hc Hs].
  cbn [endsWith]. rewrite (IH Hs), orb_false_r.
  apply String.eqb_neq. intros [= -> _]. vm_compute in Hc. discriminate.
Qed.

Lemma occurs_app c s t : occurs c (s ++ t) = occurs c s || occurs c t.
Proof.
  induction s as [| d s IH]; [reflexivity |].
  change (Ascii.eqb c d || occurs c (s ++ t)
          = Ascii.eqb c d || occurs c s || occurs c t).
  rewrite IH. apply orb_assoc.
Qed.

Lemma occurs_slash_class s :
  all_in_class s = true -> occurs "/" s = false.
Proof.
  induction s as [| c s IH]; intros Hall; [reflexivity |].
  simpl in Hall. apply andb_true_iff in Hall. destruct Hall as [Hc Hs].
  cbn [occurs]. rewrite (IH Hs), orb_false_r.
  destruct (Ascii.eqb_spec "/" c) as [Heq | Hneq]; [| reflexivity].
  destruct (in_class_not_slash c Hc). symmetry. exact Heq.
Qed.

Lemma normalized_word stem :
  word stem ->
  normalizedFilename stem = stem ++ ".json"
  /\ normalizedFilename (stem ++ ".json") = stem ++ ".json".
Proof.
  intros [_ Hall]. unfold normalizedFilename.
  rewrite (endsWith_class stem Hall), endsWith_app. split; reflexivity.
Qed.

(** An accepted name addresses one file of the mock data directory: the name
    the route reads is the word followed by [.json], it holds no slash, and
    the route answers the word and the word with [.json] alike.  On the
    paths this makes [/api/<word>] and [/api/<word>.json] the same, for
    every word but [todos]: [/api/todos] is the listing of the todos, and
    only [/api/todos.json] is the file. *)
Theorem accepted_name_is_one_file (env : Env) (keys : list string)
    (kv : gmap string json) (filename : string) :
  filename_ok filename = true ->
  exists stem,
    word stem
    /\ normalizedFilename filename = stem ++ ".json"
    /\ occurs "/" (normalizedFilename filename) = false
    /\ api_filename env filename = api_filename env stem
    /\ api_filename env filename = api_filename env (stem ++ ".json")
    /\ get_api env keys kv (stem ++ ".json") = api_filename env filename
    /\ (stem <> "todos" ->
        get_api env keys kv stem = get_api env keys kv (stem ++ ".json"))
    /\ (stem = "todos" -> get_api env keys kv stem = todos_get keys kv).
Proof.
  intros Hok. apply filename_ok_iff in Hok.
  destruct Hok as (stem & Hword & Hf). exists stem.
  destruct (normalized_word stem Hword) as [Hn1 Hn2].
  assert (Hok1 : filename_ok stem = true).
  { apply filename_ok_iff. exists stem. split; [exact Hword | left; reflexivity]. }
  assert (Hok2 : filename_ok (stem ++ ".json") = true).
  { apply filename_ok_iff. exists stem.
    split; [exact Hword | right; reflexivity]. }
  assert (Hsame : api_filename env stem = api_filename env (stem ++ ".json")).
  { unfold api_filename, loadMockData. rewrite Hok1, Hok2, Hn1, Hn2.
    reflexivity. }
  assert (Hnorm : normalizedFilename filename = stem ++ ".json")
    by (destruct Hf as [-> | ->]; assumption).
  assert (Hfile : api_filename env filename = api_filename env stem
                  /\ api_filename env filename
                     = api_filename env (stem ++ ".json"))
    by (destruct Hf as [-> | ->]; split; congruence).
  assert (Hdot : String.eqb (stem ++ ".json") "todos" = false).
  { apply String.eqb_neq. intros Heq.
    assert (Hocc : occurs "." (stem ++ ".json") = true).
    { rewrite occurs_app. apply orb_true_r. }
    rewrite Heq in Hocc. discriminate. }
  split; [exact Hword |]. split; [exact Hnorm |]. split.
  { rewrite Hnorm, occurs_app. destruct Hword as [_ Hall].
    rewrite (occurs_slash_class stem Hall). reflexivity. }
  split; [exact (proj1 Hfile) |]. split; [exact (proj2 Hfile) |].
  unfold get_api. rewrite Hdot.
  split; [symmetry; exact (proj2 Hfile) |]. split.
  - intros Hne. apply String.eqb_neq in Hne. rewrite Hne. exact Hsame.
  - intros ->. reflexivity.
Qed.

Lemma accepted_name_is_one_file_witness :
  filename_ok "cities" = true
  /\ get_api mock_env ["todo-1"] store1 "cities"
     = c_json (JArr [JStr "Oslo"]) 200
  /\ exists stem,
       normalizedFilename "cities" = stem ++ ".json"
       /\ get_api mock_env ["todo-1"] store1 (stem ++ ".json")
          = api_filename mock_env "cities".
Proof.
  split; [reflexivity |]. split; [reflexivity |].
  destruct (accepted_name_is_one_file mock_env ["todo-1"] store1 "cities"
              eq_refl)
    as (stem & _ & Hnorm & _ & _ & _ & Hjson & _).
  exists stem. split; [exact Hnorm | exact Hjson].
Defined.

Lemma caught_plain e :
  ~ singled_out e -> caught e = c_json (error_body "File not found") 404.
Proof.
  intros Hnot. destruct e as [m |]; [| reflexivity]. simpl.
  destruct (String.eqb m "Invalid filename") eqn:H1.
  { apply String.eqb_eq in H1. subst m. destruct Hnot. left. reflexivity. }
  destruct (String.eqb m "Mock API is disabled") eqn:H2; [| reflexivity].
  apply String.eqb_eq in H2. subst m. destruct Hnot. right. reflexivity.
Qed.

Lemma from_modules_plain env n e :
  plain_assets env -> from_modules env n = Throw e -> ~ singled_out e.
Proof.
  intros [_ Hmod]. unfold from_modules.
  destruct (mockDataModules env !! module_path n) as [parsed |] eqn:Hn.
  - intros ->. exact (Hmod _ e Hn).
  - intros [= <-] [H | H]; discriminate.
Qed.

Lemma api_filename_valid env filename :
  plain_assets env ->
  MOCK_API env = true -> filename_ok filename = true ->
  status (api_filename env filename) = 200
  \/ api_filename env filename = c_json (error_body "File not found") 404.
Proof.
  intros Hplain Hon Hok. unfold api_filename.
  destruct (loadMockData env filename) as [data | e] eqn:Hload;
    [left; reflexivity | right].
  apply caught_plain. revert Hload. unfold loadMockData.
  rewrite Hon, Hok. simpl.
  destruct (ASSETS env) as [fetch |] eqn:Hassets;
    [| apply from_modules_plain; exact Hplain].
  destruct (fetch (asset_path (normalizedFilename filename)))
    as [e0 | [|] content] eqn:Hfetch.
  - intros [= ->].
    apply (proj1 Hplain fetch (asset_path (normalizedFilename filename)) e
             Hassets).
    left. exact Hfetch.
  - intros ->.
    apply (proj1 Hplain fetch (asset_path (normalizedFilename filename)) e
             Hassets).
    right. exact Hfetch.
  - apply from_modules_plain. exact Hplain.
Qed.

(** The mock data route checks the switch first and the name second: with
    the mock API off every name it is given is answered 403, and with it on
    a name that fails the test is answered 400 before any file is looked
    for.  When nothing thrown while a file is fetched or parsed carries one
    of these two messages, 403 means exactly that the switch is off and 400
    exactly that the name failed, and every other answer is 200 or 404 "File
    not found".  On the paths [/api/<segment>] this holds for every segment
    but [todos], which the listing of the todos answers whatever the
    switch. *)
Theorem mock_route_gates (env : Env) (keys : list string)
    (kv : gmap string json) (filename : string) :
  filename <> "todos" ->
  get_api env keys kv filename = api_filename env filename
  /\ get_api env keys kv "todos" = todos_get keys kv
  /\ (MOCK_API env = false ->
      get_api env keys kv filename
        = c_json (error_body "Mock API is disabled") 403)
  /\ (MOCK_API env = true -> filename_ok filename = false ->
      get_api env keys kv filename
        = c_json (error_body "Invalid filename") 400)
  /\ (plain_assets env ->
      (status (get_api env keys kv filename) = 403 <-> MOCK_API env = false)
      /\ (status (get_api env keys kv filename) = 400 <->
          MOCK_API env = true /\ filename_ok filename = false)
      /\ (MOCK_API env = true -> filename_ok filename = true ->
          status (get_api env keys kv filename) = 200
          \/ get_api env keys kv filename
               = c_json (error_body "File not found") 404)).
Proof.
  intros Hseg.
  assert (Hroute : get_api env keys kv filename = api_filename env filename).
  { unfold get_api. apply String.eqb_neq in Hseg. rewrite Hseg. reflexivity. }
  split; [exact Hroute |]. split; [reflexivity |]. rewrite Hroute.
  assert (Hoff : MOCK_API env = false ->
                 api_filename env filename
                   = c_json (error_body "Mock API is disabled") 403).
  { intros H. unfold api_filename, loadMockData. rewrite H. reflexivity. }
  assert (Hbad : MOCK_API env = true -> filename_ok filename = false ->
                 api_filename env filename
                   = c_json (error_body "Invalid filename") 400).
  { intros H1 H2. unfold api_filename, loadMockData. rewrite H1, H2.
    reflexivity. }
  split; [exact Hoff |]. split; [exact Hbad |].
  intros Hplain.
  destruct (MOCK_API env) eqn:Hon.
  - destruct (filename_ok filename) eqn:Hok.
    + pose proof (api_filename_valid env filename Hplain Hon Hok) as Hv.
      split; [| split].
      * split; [| discriminate].
        intros H. destruct Hv as [Hv | Hv]; rewrite Hv in H; discriminate.
      * split; [| intros [_ H]; discriminate].
        intros H. destruct Hv as [Hv | Hv]; rewrite Hv in H; discriminate.
      * intros _ _. exact Hv.
    + rewrite (Hbad eq_refl eq_refl). simpl.
      split; [split; discriminate |].
      split; [split; [intros _; split; reflexivity | reflexivity] |].
      intros _ H. discriminate.
  - rewrite (Hoff eq_refl). simpl.
    split; [split; reflexivity |].
    split; [split; [discriminate | intros [H _]; discriminate] |].
    intros H. discriminate.
Qed.

Lemma plain_assets_mock_env : plain_assets mock_env.
Proof.
  split.
  - intros fetch path e [= <-] [Hfetch | Hfetch];
      destruct (String.eqb path "/mock-data/cities.json"); discriminate.
  - intros path e Hmod. cbn [mockDataModules mock_env] in Hmod.
    apply lookup_singleton_Some in Hmod.
    destruct Hmod as [_ Hmod]. discriminate.
Qed.

Lemma mock_route_gates_witness :
  "../secrets" <> "todos"
  /\ plain_assets mock_env
  /\ MOCK_API mock_env = true
  /\ filename_ok "../secrets" = false
  /\ get_api mock_env ["todo-1"] store1 "../secrets"
       = c_json (error_body "Invalid filename") 400.
Proof.
  assert (Hseg : "../secrets" <> "todos") by discriminate.
  split; [exact Hseg |].
  split; [exact plain_assets_mock_env |]. split; [reflexivity |].
  split; [reflexivity |].
  destruct (mock_route_gates mock_env ["todo-1"] store1 "../secrets" Hseg)
    as (_ & _ & _ & Hbad & _).
  exact (Hbad eq_refl eq_refl).
Defined.

End MockDataFacts.

(** ** The action: what a success tag tells *)

Section ActionTags.
Context {St : Type} (fetchApi : ApiRequest -> M St Response) (now : string).

(** What a form asks for: nothing a request is made for, or one of the three
    intents with its required field. *)
Lemma form_cases (fd : FormData) (s : St) :
  (exists m, action fetchApi now fd s = (s, ActError m))
  \/ (exists t, fd_get "intent" fd = Some "create"
        /\ fd_get "title" fd = Some t /\ trim t <> EmptyString)
  \/ (exists id, fd_get "intent" fd = Some "update"
        /\ fd_get "id" fd = Some id /\ id <> EmptyString)
  \/ (exists id, fd_get "intent" fd = Some "delete"
        /\ fd_get "id" fd = Some id /\ id <> EmptyString).
Proof.
  destruct (decide (fd_get "intent" fd = Some "create")) as [Hc | Hc].
  { destruct (nonempty (trim <$> fd_get "title" fd)) eqn:Ht.
    - destruct (fd_get "title" fd) as [t |] eqn:Hft; [| discriminate].
      right; left. exists t. repeat split; [exact Hc |].
      intros Hemp. simpl in Ht. rewrite Hemp in Ht. discriminate.
    - left. eexists. apply action_create_blank; assumption. }
  destruct (decide (fd_get "intent" fd = Some "update")) as [Hu | Hu].
  { destruct (nonempty (fd_get "id" fd)) eqn:Hid.
    - destruct (fd_get "id" fd) as [id |] eqn:Hfid; [| discriminate].
      right; right; left. exists id. repeat split; [exact Hu |].
      intros ->. discriminate.
    - left. eexists. apply action_update_no_id; assumption. }
  destruct (decide (fd_get "intent" fd = Some "delete")) as [Hd | Hd].
  { destruct (nonempty (fd_get "id" fd)) eqn:Hid.
    - destruct (fd_get "id" fd) as [id |] eqn:Hfid; [| discriminate].
      right; right; right. exists id. repeat split; [exact Hd |].
      intros ->. discriminate.
    - left. eexists. apply action_delete_no_id; assumption. }
  left. apply action_unknown; assumption.
Qed.

Lemma outcome_success verb parsed o a :
  outcome verb parsed o = a ->
  (forall m, a <> ActError m) ->
  exists r, o = Ok r /\ ok r = true /\ parsed r = a.
Proof.
  intros Ho Hne. destruct o as [r | e]; simpl in Ho.
  - destruct (ok r) eqn:Hok.
    + exists r. repeat split; assumption.
    + destruct (Hne _ (eq_sym Ho)).
  - destruct (Hne _ (eq_sym Ho)).
Qed.

(** A success tag is never given for another intent, for a request that was
    not made, or for an answer outside 200..299: a create or update tag
    carries the body of the 2xx answer to the POST or PUT the form asked
    for, and a delete tag carries the id of the form after a 2xx answer to
    its DELETE. *)
Theorem success_tag_is_earned (fd : FormData) (s : St) :
  (forall d, snd (action fetchApi now fd s) = ActCreate d ->
     exists t r,
       fd_get "intent" fd = Some "create"
       /\ fd_get "title" fd = Some t /\ trim t <> EmptyString
       /\ snd (fetchApi (PostTodos (Some (JObj (create_body now (trim t))))) s)
            = Ok r
       /\ ok r = true /\ body r = Some d)
  /\ (forall d, snd (action fetchApi now fd s) = ActUpdate d ->
        exists id r,
          fd_get "intent" fd = Some "update"
          /\ fd_get "id" fd = Some id /\ id <> EmptyString
          /\ snd (fetchApi
                    (PutTodo id
                       (Some (JObj (update_body id (fd_get "title" fd)
                                      (fd_get "completed" fd))))) s) = Ok r
          /\ ok r = true /\ body r = Some d)
  /\ (forall id, snd (action fetchApi now fd s) = ActDelete id ->
        exists r,
          fd_get "intent" fd = Some "delete"
          /\ fd_get "id" fd = Some id /\ id <> EmptyString
          /\ snd (fetchApi (DeleteTodo id) s) = Ok r /\ ok r = true).
Proof.
  pose proof (form_cases fd s) as Hcases.
  destruct Hcases as [[m Hm] | [(t & Hi & Ht & Hne) | [(id & Hi & Hid & Hne)
                     | (id & Hi & Hid & Hne)]]].
  - rewrite Hm. simpl. repeat split; intros; discriminate.
  - rewrite (action_create_eq fetchApi now fd s t Hi Ht Hne). cbn [snd].
    split; [| split]; intros d Hd.
    + destruct (outcome_success _ _ _ _ Hd) as (r & Hr & Hok & Hp);
        [discriminate |].
      exists t, r. repeat split; try assumption.
      unfold created in Hp. destruct (body r); congruence.
    + destruct (outcome_success _ _ _ _ Hd) as (r & _ & _ & Hp);
        [discriminate |].
      unfold created in Hp. destruct (body r); discriminate.
    + destruct (outcome_success _ _ _ _ Hd) as (r & _ & _ & Hp);
        [discriminate |].
      unfold created in Hp. destruct (body r); discriminate.
  - rewrite (action_update_eq fetchApi now fd s id Hi Hid Hne). cbn [snd].
    split; [| split]; intros d Hd.
    + destruct (outcome_success _ _ _ _ Hd) as (r & _ & _ & Hp);
        [discriminate |].
      unfold updated in Hp. destruct (body r); discriminate.
    + destruct (outcome_success _ _ _ _ Hd) as (r & Hr & Hok & Hp);
        [discriminate |].
      exists id, r. repeat split; try assumption.
      unfold updated in Hp. destruct (body r); congruence.
    + destruct (outcome_success _ _ _ _ Hd) as (r & _ & _ & Hp);
        [discriminate |].
      unfold updated in Hp. destruct (body r); discriminate.
  - rewrite (action_delete_eq fetchApi now fd s id Hi Hid Hne). cbn [snd].
    split; [| split]; intros d Hd.
    + destruct (outcome_success _ _ _ _ Hd) as (r & _ & _ & Hp);
        [discriminate | discriminate].
    + destruct (outcome_success _ _ _ _ Hd) as (r & _ & _ & Hp);
        [discriminate | discriminate].
    + destruct (outcome_success _ _ _ _ Hd) as (r & Hr & Hok & Hp);
        [discriminate |].
      injection Hp as <-. exists r. repeat split; assumption.
Qed.

End ActionTags.

Lemma success_tag_is_earned_witness :
  snd (action (fetchInternal env2) (clientNow env2) toggle_form
         (store1, @nil ApiRequest))
    = ActUpdate
        (JObj (merge_update (serverNow env2) (JObj milk)
                 (JObj (update_body "todo-1" None (Some "true")))))
  /\ exists id r,
       fd_get "id" toggle_form = Some id /\ ok r = true
       /\ body r
            = Some (JObj (merge_update (serverNow env2) (JObj milk)
                            (JObj (update_body "todo-1" None (Some "true"))))).
Proof.
  assert (H : snd (action (fetchInternal env2) (clientNow env2) toggle_form
                     (store1, @nil ApiRequest))
              = ActUpdate
                  (JObj (merge_update (serverNow env2) (JObj milk)
                           (JObj (update_body "todo-1" None (Some "true"))))))
    by reflexivity.
  split; [exact H |].
  destruct (proj1 (proj2 (success_tag_is_earned (fetchInternal env2)
                            (clientNow env2) toggle_form (store1, [])))
              _ H) as (id & r & _ & Hid & _ & _ & Hok & Hbody).
  exists id, r. repeat split; assumption.
Defined.

(** ** One undo window at a time *)

Lemma filter_commute {A} (p q : A -> bool) (l : list A) :
  List.filter p (List.filter q l) = List.filter q (List.filter p l).
Proof.
  induction l as [| x l IH]; [reflexivity |]. simpl.
  destruct (q x) eqn:Hq, (p x) eqn:Hp; simpl; rewrite ?Hq, ?Hp, IH;
    reflexivity.
Qed.

Lemma Forall_list_filter {A} (P : A -> Prop) (f : A -> bool) (l : list A) :
  Forall P l -> Forall P (List.filter f l).
Proof.
  induction 1 as [| x l Hx Hl IH]; simpl; [constructor |].
  destruct (f x); [constructor; assumption | assumption].
Qed.

Lemma plain_id_not_delete t id :
  plain_toast t -> String.eqb (Toast.id t) (delete_toast_id id) = false.
Proof.
  intros (_ & _ & now & rnd & Hid). apply String.eqb_neq. rewrite Hid.
  unfold Toast.generated_id, delete_toast_id. simpl. discriminate.
Qed.

Lemma plain_not_delete t : plain_toast t -> is_delete_toast t = false.
Proof. intros (_ & Hd & _). unfold is_delete_toast. rewrite Hd. reflexivity. Qed.

(** [one_window] looks at the page and at the queue only. *)
Lemma one_window_same w w' :
  deletingTodoId (page w') = deletingTodoId (page w) ->
  deletingTodoIdRef (page w') = deletingTodoIdRef (page w) ->
  toasts w' = toasts w ->
  one_window w -> one_window w'.
Proof.
  unfold one_window. intros -> -> ->. tauto.
Qed.

Lemma no_delete_toast_in_plain extra :
  Forall plain_toast extra -> List.filter is_delete_toast extra = [].
Proof.
  induction 1 as [| t l Ht Hl IH]; [reflexivity |].
  simpl. rewrite (plain_not_delete t Ht). exact IH.
Qed.

(** Plain toasts may be added. *)
Lemma one_window_add w w' extra :
  deletingTodoId (page w') = deletingTodoId (page w) ->
  deletingTodoIdRef (page w') = deletingTodoIdRef (page w) ->
  toasts w' = (toasts w ++ extra)%list ->
  Forall plain_toast extra ->
  one_window w -> one_window w'.
Proof.
  unfold one_window. intros -> -> -> Hextra (Heq & Hplain & Hpending).
  pose proof (no_delete_toast_in_plain extra Hextra) as Hnone.
  split; [exact Heq |]. rewrite !List.filter_app, Hnone, app_nil_r.
  split; [| exact Hpending].
  apply Forall_app. split; [exact Hplain |].
  apply Forall_list_filter. exact Hextra.
Qed.

(** A plain toast may be removed. *)
Lemma one_window_remove_plain w w' t :
  deletingTodoId (page w') = deletingTodoId (page w) ->
  deletingTodoIdRef (page w') = deletingTodoIdRef (page w) ->
  toasts w' = Toast.removeToast (Toast.id t) (toasts w) ->
  plain_toast t ->
  one_window w -> one_window w'.
Proof.
  unfold one_window, Toast.removeToast.
  intros -> -> -> Ht (Heq & Hplain & Hpending).
  split; [exact Heq |]. rewrite (filter_commute (fun t => negb (is_delete_toast t)) _ (toasts w)),
    (filter_commute is_delete_toast _ (toasts w)).
  split; [apply Forall_list_filter; exact Hplain |].
  destruct (deletingTodoIdRef (page w)) as [id |].
  - destruct Hpending as (Hne & e & ->). split; [exact Hne |]. exists e.
    cbn [List.filter Toast.id delete_toast].
    rewrite String.eqb_sym, (plain_id_not_delete t id Ht). reflexivity.
  - rewrite Hpending. reflexivity.
Qed.

(** Removing the toast of the pending deletion and clearing the deletion
    closes the window. *)
Lemma one_window_close w w' id :
  deletingTodoId (page w') = None ->
  deletingTodoIdRef (page w') = None ->
  toasts w' = Toast.removeToast (delete_toast_id id) (toasts w) ->
  deletingTodoIdRef (page w) = Some id ->
  one_window w -> one_window w'.
Proof.
  unfold one_window, Toast.removeToast.
  intros -> -> -> Href (_ & Hplain & Hpending). rewrite Href in Hpending.
  split; [reflexivity |]. rewrite (filter_commute (fun t => negb (is_delete_toast t)) _ (toasts w)),
    (filter_commute is_delete_toast _ (toasts w)).
  split; [apply Forall_list_filter; exact Hplain |].
  destruct Hpending as (_ & e & ->).
  cbn [List.filter Toast.id delete_toast]. rewrite String.eqb_refl.
  reflexivity.
Qed.

(** A toast of the queue is plain or is a deletion toast of the queue. *)
Lemma toast_of_queue w i t :
  Forall plain_toast
    (List.filter (fun t => negb (is_delete_toast t)) (toasts w)) ->
  toasts w !! i = Some t ->
  plain_toast t \/ In t (List.filter is_delete_toast (toasts w)).
Proof.
  intros Hplain Hi.
  assert (Hin : In t (toasts w)).
  { apply list_elem_of_In, list_elem_of_lookup. exists i. exact Hi. }
  destruct (is_delete_toast t) eqn:Hdel.
  - right. apply List.filter_In. split; assumption.
  - left. rewrite Forall_forall in Hplain. apply Hplain.
    apply list_elem_of_In, List.filter_In. split; [exact Hin |].
    rewrite Hdel. reflexivity.
Qed.

(** In a session with one window, a toast of the queue is plain or is the
    toast of the pending deletion. *)
Lemma one_window_toast w i t :
  one_window w -> toasts w !! i = Some t ->
  plain_toast t
  \/ exists id e,
       deletingTodoIdRef (page w) = Some id /\ plain_segment id = true
       /\ t = delete_toast id e.
Proof.
  intros (_ & Hplain & Hpending) Hi.
  destruct (toast_of_queue w i t Hplain Hi) as [Ht | Hin]; [left; exact Ht |].
  right. destruct (deletingTodoIdRef (page w)) as [id |].
  - destruct Hpending as (Hne & e & Hlist). rewrite Hlist in Hin.
    destruct Hin as [<- | []]. exists id, e. repeat split. exact Hne.
  - rewrite Hpending in Hin. destruct Hin.
Qed.

Lemma error_toast_plain e err :
  Forall plain_toast
    [{| Toast.id := Toast.id_or None (Toast.generated_id (dateNow e) (random e));
        Toast.title := "Error";
        Toast.description := Some err;
        Toast.createdAt := dateNow e;
        Toast.duration := Some (Toast.duration_or (Some 3000) 5000);
        Toast.action := None;
        Toast.onDismiss := None |}].
Proof.
  constructor; [| constructor].
  split; [reflexivity |]. split; [reflexivity |].
  exists (dateNow e), (random e). reflexivity.
Qed.

Lemma actionEffect_window e a w :
  (forall id, a <> ActDelete id) ->
  one_window w -> one_window (actionEffect e a w).
Proof.
  intros Hnot Hw. destruct a as [d | d | id | m].
  - exact Hw.
  - exact Hw.
  - destruct (Hnot id eq_refl).
  - eapply (one_window_add w);
      [reflexivity | reflexivity | reflexivity | | exact Hw].
    apply error_toast_plain.
Qed.

Lemma submit_window e fd w :
  fd_get "intent" fd <> Some "delete" ->
  one_window w -> one_window (submit e fd w).
Proof.
  intros Hfd Hw.
  destruct (submit_pending e fd w) as (Hp & Hq & _ & Ht).
  destruct (submit_result e fd w) as (Honly & _).
  apply (one_window_same
           (actionEffect e
              (snd (action (fetchInternal e) (clientNow e) fd
                      (kv w, requests w))) w));
    [exact Hq | exact Hp | exact Ht |].
  apply actionEffect_window; [| exact Hw].
  intros id Ha. exact (Hfd (proj1 (Honly id Ha))).
Qed.

Lemma step_window w ev :
  deletes_plain ev ->
  one_window w -> one_window (step w ev).
Proof.
  intros Hev Hw.
  destruct ev as [s | e | id c e | id s | s | e | | id e | i | i e];
    cbn [step]; try exact Hw.
  - unfold handleAddTodo.
    destruct (String.eqb (trim (newTodoTitle (page w))) EmptyString);
      [exact Hw |].
    apply submit_window; [discriminate | exact Hw].
  - apply submit_window; [discriminate | exact Hw].
  - unfold handleSaveEdit. destruct (editingTodoId (page w)) as [id1 |];
      [| exact Hw].
    destruct (String.eqb id1 EmptyString
              || String.eqb (trim (editTodoTitle (page w))) EmptyString);
      [exact Hw |].
    apply submit_window; [discriminate | exact Hw].
  - destruct (nonempty (deletingTodoId (page w))) eqn:Hfree.
    { unfold handleDeleteTodo. rewrite Hfree. exact Hw. }
    rewrite (handleDeleteTodo_accepted id e w Hfree).
    destruct Hw as (Heq & Hplain & Hpending).
    assert (Href : deletingTodoIdRef (page w) = None).
    { destruct (deletingTodoIdRef (page w)) as [id0 |]; [| reflexivity].
      destruct Hpending as (Hp0 & _). rewrite Heq in Hfree. simpl in Hfree.
      pose proof (plain_segment_nonempty id0 Hp0) as Hne.
      apply String.eqb_neq in Hne. rewrite Hne in Hfree. discriminate. }
    rewrite Href in Hpending.
    unfold one_window. simpl. rewrite !List.filter_app, Hpending. simpl.
    split; [reflexivity |]. split; [rewrite app_nil_r; exact Hplain |].
    split; [exact (Hev id e eq_refl) | exists e; reflexivity].
  - destruct (toasts w !! i) as [t |] eqn:Hi; [| exact Hw].
    destruct (one_window_toast w i t Hw Hi)
      as [(Hact & _) | (id & e & Href & _ & ->)].
    + rewrite Hact. exact Hw.
    + simpl.
      eapply (one_window_close w _ id);
        [reflexivity | reflexivity | reflexivity | exact Href | exact Hw].
  - destruct (toasts w !! i) as [t |] eqn:Hi; [| exact Hw].
    destruct (one_window_toast w i t Hw Hi)
      as [Hplain | (id & e0 & Href & Hne & ->)].
    + unfold handleDismiss. rewrite (proj1 (proj2 Hplain)).
      eapply (one_window_remove_plain w _ t);
        [reflexivity | reflexivity | reflexivity | exact Hplain | exact Hw].
    + unfold handleDismiss. cbn [Toast.onDismiss delete_toast run_onDismiss].
      change (deletingTodoIdRef
                (page (with_toasts
                         (Toast.removeToast (Toast.id (delete_toast id e0)))
                         w)))
        with (deletingTodoIdRef (page w)).
      rewrite Href, String.eqb_refl. unfold submit.
      rewrite (facade_delete e [("intent", "delete"); ("id", id)] _ _ id
                 eq_refl eq_refl Hne).
      eapply (one_window_close w _ id);
        [reflexivity | reflexivity | reflexivity | exact Href | exact Hw].
Qed.

(** The same for what holds whether or not the requests succeed. *)
Lemma weak_window_same w w' :
  deletingTodoId (page w') = deletingTodoId (page w) ->
  deletingTodoIdRef (page w') = deletingTodoIdRef (page w) ->
  toasts w' = toasts w ->
  at_most_one_window w -> at_most_one_window w'.
Proof.
  unfold at_most_one_window. intros -> -> ->. tauto.
Qed.

Lemma weak_window_add w w' extra :
  deletingTodoId (page w') = deletingTodoId (page w) ->
  deletingTodoIdRef (page w') = deletingTodoIdRef (page w) ->
  toasts w' = (toasts w ++ extra)%list ->
  Forall plain_toast extra ->
  at_most_one_window w -> at_most_one_window w'.
Proof.
  unfold at_most_one_window. intros -> -> -> Hextra (Heq & Hplain & Hpending).
  pose proof (no_delete_toast_in_plain extra Hextra) as Hnone.
  split; [exact Heq |]. rewrite !List.filter_app, Hnone, app_nil_r.
  split; [| exact Hpending].
  apply Forall_app. split; [exact Hplain |].
  apply Forall_list_filter. exact Hextra.
Qed.

Lemma weak_window_remove_plain w w' t :
  deletingTodoId (page w') = deletingTodoId (page w) ->
  deletingTodoIdRef (page w') = deletingTodoIdRef (page w) ->
  toasts w' = Toast.removeToast (Toast.id t) (toasts w) ->
  plain_toast t ->
  at_most_one_window w -> at_most_one_window w'.
Proof.
  unfold at_most_one_window, Toast.removeToast.
  intros -> -> -> Ht (Heq & Hplain & Hpending).
  split; [exact Heq |]. rewrite (filter_commute (fun t => negb (is_delete_toast t)) _ (toasts w)),
    (filter_commute is_delete_toast _ (toasts w)).
  split; [apply Forall_list_filter; exact Hplain |].
  destruct Hpending as [-> | (id & e & Href & Hne & ->)]; [left; reflexivity |].
  right. exists id, e. split; [exact Href |]. split; [exact Hne |].
  cbn [List.filter Toast.id delete_toast].
  rewrite String.eqb_sym, (plain_id_not_delete t id Ht). reflexivity.
Qed.

(** Once the toast of the pending deletion is removed, no deletion toast is
    left, whatever becomes of the pending deletion. *)
Lemma weak_window_close w w' id :
  deletingTodoId (page w') = deletingTodoIdRef (page w') ->
  toasts w' = Toast.removeToast (delete_toast_id id) (toasts w) ->
  deletingTodoIdRef (page w) = Some id ->
  at_most_one_window w ->
  at_most_one_window w'
  /\ List.filter is_delete_toast (toasts w') = [].
Proof.
  unfold at_most_one_window, Toast.removeToast.
  intros Heq' -> Href (_ & Hplain & Hpending).
  assert (Hnone : List.filter is_delete_toast
                    (List.filter
                       (fun toast =>
                          negb (String.eqb (Toast.id toast)
                                  (delete_toast_id id)))
                       (toasts w)) = []).
  { rewrite (filter_commute is_delete_toast _ (toasts w)).
    destruct Hpending as [-> | (id0 & e & Href0 & _ & ->)]; [reflexivity |].
    rewrite Href in Href0. injection Href0 as <-.
    cbn [List.filter Toast.id delete_toast]. rewrite String.eqb_refl.
    reflexivity. }
  split; [| exact Hnone].
  split; [exact Heq' |]. split; [| left; exact Hnone].
  rewrite (filter_commute (fun t => negb (is_delete_toast t)) _ (toasts w)).
  apply Forall_list_filter. exact Hplain.
Qed.

Lemma weak_window_toast w i t :
  at_most_one_window w -> toasts w !! i = Some t ->
  plain_toast t
  \/ exists id e,
       deletingTodoIdRef (page w) = Some id /\ t = delete_toast id e.
Proof.
  intros (_ & Hplain & Hpending) Hi.
  destruct (toast_of_queue w i t Hplain Hi) as [Ht | Hin]; [left; exact Ht |].
  right. destruct Hpending as [Hnone | (id & e & Href & _ & Hlist)].
  - rewrite Hnone in Hin. destruct Hin.
  - rewrite Hlist in Hin. destruct Hin as [<- | []].
    exists id, e. split; [exact Href | reflexivity].
Qed.

(** A submission keeps it, provided no deletion toast is in the queue when
    the intent is a deletion. *)
Lemma submit_weak_window e fd w :
  (fd_get "intent" fd = Some "delete" ->
   List.filter is_delete_toast (toasts w) = []) ->
  at_most_one_window w -> at_most_one_window (submit e fd w).
Proof.
  intros Hfd Hw.
  destruct (submit_pending e fd w) as (Hp & Hq & _ & Ht).
  destruct (submit_result e fd w) as (Honly & _).
  revert Hp Hq Ht Honly.
  set (a := snd (action (fetchInternal e) (clientNow e) fd
                   (kv w, requests w))).
  intros Hp Hq Ht Honly.
  destruct a as [d | d | id | m].
  - apply (weak_window_same w); assumption.
  - apply (weak_window_same w); assumption.
  - destruct Hw as (_ & Hplain & _).
    pose proof (Hfd (proj1 (Honly id eq_refl))) as Hnone.
    unfold at_most_one_window. rewrite Hp, Hq, Ht. cbn.
    split; [reflexivity |]. split; [exact Hplain | left; exact Hnone].
  - apply (weak_window_add w _ _ Hq Hp Ht); [| exact Hw].
    apply error_toast_plain.
Qed.

Lemma step_weak_window w ev :
  (forall e, ev <> ClickDelete EmptyString e) ->
  at_most_one_window w -> at_most_one_window (step w ev).
Proof.
  intros Hev Hw.
  destruct ev as [s | e | id c e | id s | s | e | | id e | i | i e];
    cbn [step]; try exact Hw.
  - unfold handleAddTodo.
    destruct (String.eqb (trim (newTodoTitle (page w))) EmptyString);
      [exact Hw |].
    apply submit_weak_window; [discriminate | exact Hw].
  - apply submit_weak_window; [discriminate | exact Hw].
  - unfold handleSaveEdit. destruct (editingTodoId (page w)) as [id1 |];
      [| exact Hw].
    destruct (String.eqb id1 EmptyString
              || String.eqb (trim (editTodoTitle (page w))) EmptyString);
      [exact Hw |].
    apply submit_weak_window; [discriminate | exact Hw].
  - destruct (nonempty (deletingTodoId (page w))) eqn:Hfree.
    { unfold handleDeleteTodo. rewrite Hfree. exact Hw. }
    rewrite (handleDeleteTodo_accepted id e w Hfree).
    destruct Hw as (Heq & Hplain & Hpending).
    assert (Hnone : List.filter is_delete_toast (toasts w) = []).
    { destruct Hpending as [Hnone | (id0 & e0 & Href & Hne & _)];
        [exact Hnone |].
      rewrite Heq, Href in Hfree. simpl in Hfree.
      apply String.eqb_neq in Hne. rewrite Hne in Hfree. discriminate. }
    unfold at_most_one_window. simpl. rewrite !List.filter_app, Hnone. simpl.
    split; [reflexivity |]. split; [rewrite app_nil_r; exact Hplain |].
    right. exists id, e. split; [reflexivity |]. split; [| reflexivity].
    intros ->. exact (Hev e eq_refl).
  - destruct (toasts w !! i) as [t |] eqn:Hi; [| exact Hw].
    destruct (weak_window_toast w i t Hw Hi)
      as [(Hact & _) | (id & e & Href & ->)].
    + rewrite Hact. exact Hw.
    + simpl.
      exact (proj1 (weak_window_close w (handleUndoDelete id w) id
                      eq_refl eq_refl Href Hw)).
  - destruct (toasts w !! i) as [t |] eqn:Hi; [| exact Hw].
    destruct (weak_window_toast w i t Hw Hi)
      as [Hplain | (id & e0 & Href & ->)].
    + unfold handleDismiss. rewrite (proj1 (proj2 Hplain)).
      eapply (weak_window_remove_plain w _ t);
        [reflexivity | reflexivity | reflexivity | exact Hplain | exact Hw].
    + unfold handleDismiss. cbn [Toast.onDismiss delete_toast run_onDismiss].
      change (deletingTodoIdRef
                (page (with_toasts
                         (Toast.removeToast (Toast.id (delete_toast id e0)))
                         w)))
        with (deletingTodoIdRef (page w)).
      rewrite Href, String.eqb_refl.
      destruct (weak_window_close w
                  (with_toasts
                     (Toast.removeToast (Toast.id (delete_toast id e0))) w)
                  id (proj1 Hw) eq_refl Href Hw) as [Hw1 Hnone].
      apply submit_weak_window; [intros _; exact Hnone | exact Hw1].
Qed.

(** Whether or not the requests succeed, every sequence of events of the
    page (the deletions being of todos with a non-empty id) keeps at most
    one deletion toast in the queue, which is the toast of the pending
    deletion, with the state and the ref agreeing on that deletion.  When
    the deletions are of plain ids, so that every DELETE reaches its handler
    and is answered with a success, a deletion is pending exactly when its
    toast is in the queue. *)
Theorem one_window_at_a_time (evs : list Event) (w : World) :
  (at_most_one_window w ->
   Forall (fun ev => forall e, ev <> ClickDelete EmptyString e) evs ->
   at_most_one_window (run w evs))
  /\ (one_window w -> Forall deletes_plain evs -> one_window (run w evs)).
Proof.
  revert w. induction evs as [| ev evs IH]; intros w.
  { split; intros Hw _; exact Hw. }
  split; intros Hw Hevs; inversion Hevs as [| ? ? Hev Hrest]; subst;
    cbn [run fold_left].
  - apply (proj1 (IH (step w ev))); [| exact Hrest].
    apply step_weak_window; assumption.
  - apply (proj2 (IH (step w ev))); [| exact Hrest].
    apply step_window; assumption.
Qed.

Lemma one_window_world1 : one_window world1.
Proof. repeat split. constructor. Qed.

Lemma at_most_one_window_world1 : at_most_one_window world1.
Proof.
  split; [reflexivity |]. split; [constructor | left; reflexivity].
Qed.

Lemma one_window_at_a_time_witness :
  one_window world1
  /\ Forall deletes_plain
       [ClickDelete "todo-1" env1; ClickDelete "todo-7" env2;
        ToggleComplete "todo-9" false env2; ToastClosed 0 env2]
  /\ one_window
       (run world1
          [ClickDelete "todo-1" env1; ClickDelete "todo-7" env2;
           ToggleComplete "todo-9" false env2; ToastClosed 0 env2])
  /\ at_most_one_window
       (run world1 [ClickDelete "a/b" env1; ToastClosed 0 env2])
  /\ deletingTodoId
       (page (run world1 [ClickDelete "a/b" env1; ToastClosed 0 env2]))
     = Some "a/b"
  /\ List.filter is_delete_toast
       (toasts (run world1 [ClickDelete "a/b" env1; ToastClosed 0 env2]))
     = [].
Proof.
  assert (Hevs : Forall deletes_plain
                   [ClickDelete "todo-1" env1; ClickDelete "todo-7" env2;
                    ToggleComplete "todo-9" false env2; ToastClosed 0 env2]).
  { repeat constructor; intros id e [= <- <-]; reflexivity. }
  split; [exact one_window_world1 |]. split; [exact Hevs |].
  split.
  { exact (proj2 (one_window_at_a_time _ world1) one_window_world1 Hevs). }
  split; [| split; reflexivity].
  apply (proj1 (one_window_at_a_time
                  [ClickDelete "a/b" env1; ToastClosed 0 env2] world1)).
  - exact at_most_one_window_world1.
  - repeat constructor; intros e; discriminate.
Defined.

(** ** The list of the page follows the store *)

Lemma list_filter_perm {A} (f : A -> bool) (l l' : list A) :
  l ≡ₚ l' -> List.filter f l ≡ₚ List.filter f l'.
Proof.
  induction 1 as [| x l l' _ IH | x y l | l1 l2 l3 _ IH1 _ IH2].
  - reflexivity.
  - simpl. destruct (f x); [constructor; exact IH | exact IH].
  - simpl. destruct (f x), (f y); try reflexivity. apply perm_swap.
  - etransitivity; eassumption.
Qed.











Lemma put_found now id updates kv existing :
  kv !! id = Some (JObj existing) ->
  todos_put now id (Some updates) kv
  = (<[id := JObj (merge_update now (JObj existing) updates)]> kv,
     c_json (JObj (merge_update now (JObj existing) updates)) 200).
Proof.
  intros Hx. unfold todos_put, kv_get. rewrite Hx. reflexivity.
Qed.























(** ** Editing a title *)

Lemma save_edit_state id title s w :
  let w2 := step (step w (StartEdit id title)) (TypeEdit s) in
  editingTodoId (page w2) = Some id
  /\ editTodoTitle (page w2) = s
  /\ kv w2 = kv w /\ requests w2 = requests w
  /\ todos (page w2) = todos (page w) /\ toasts w2 = toasts w.
Proof. repeat split. Qed.

(** Starting an edit of a stored todo with a plain id, typing and saving: a
    title that is blank once trimmed sends nothing and the edit stays open;
    any other title sends one PUT whose body holds the id and the trimmed
    title only, after which the stored record has the trimmed title, its
    completed flag and creation time as before, and the edit is closed.
    Cancelling instead sends nothing and closes the edit. *)
Theorem edit_saves_trimmed_title (w : World) (id title s : string) (e : Env)
    (existing : gmap string json) :
  plain_segment id = true ->
  kv w !! id = Some (JObj existing) ->
  let saved := run w [StartEdit id title; TypeEdit s; SaveEdit e] in
  let cancelled := run w [StartEdit id title; TypeEdit s; CancelEdit] in
  (trim s = EmptyString ->
   kv saved = kv w /\ requests saved = requests w
   /\ todos (page saved) = todos (page w)
   /\ editingTodoId (page saved) = Some id)
  /\ (trim s <> EmptyString ->
      exists r,
        kv saved !! id = Some (JObj r)
        /\ r !! "title" = Some (JStr (trim s))
        /\ r !! "completed" = existing !! "completed"
        /\ r !! "createdAt" = existing !! "createdAt"
        /\ requests saved
           = (requests w
              ++ [PutTodo id
                    (Some (JObj (<["title" := JStr (trim s)]>
                                   {[ "id" := JStr id ]})))])%list
        /\ editingTodoId (page saved) = None)
  /\ (kv cancelled = kv w /\ requests cancelled = requests w
      /\ todos (page cancelled) = todos (page w)
      /\ editingTodoId (page cancelled) = None
      /\ editTodoTitle (page cancelled) = EmptyString).
Proof.
  intros Hplain Hx saved cancelled. subst saved cancelled.
  pose proof (plain_segment_nonempty id Hplain) as Hne.
  cbn [run fold_left].
  set (w2 := step (step w (StartEdit id title)) (TypeEdit s)).
  destruct (save_edit_state id title s w)
    as (Hed & Htitle & Hkv & Hreq & Htodos & Htoasts).
  fold w2 in Hed, Htitle, Hkv, Hreq, Htodos, Htoasts.
  assert (Hsave : step w2 (SaveEdit e) =
                  if String.eqb (trim s) EmptyString then w2
                  else submit e [("intent", "update"); ("id", id);
                                 ("title", trim s)] w2).
  { cbn [step]. unfold handleSaveEdit. rewrite Hed, Htitle.
    apply String.eqb_neq in Hne. rewrite Hne. reflexivity. }
  split; [| split].
  - intros Hblank. rewrite Hsave, Hblank. cbn [String.eqb].
    repeat split; assumption.
  - intros Hfull. rewrite Hsave. apply String.eqb_neq in Hfull.
    rewrite Hfull. unfold submit.
    rewrite (facade_update e
               [("intent", "update"); ("id", id); ("title", trim s)]
               (kv w2) (requests w2) id eq_refl eq_refl Hplain).
    rewrite Hkv, Hreq, (put_found _ _ _ _ _ Hx).
    eexists. split; [apply lookup_insert_eq |].
    split; [| split; [| split; [| split; reflexivity]]].
    + rewrite merge_update_lookup. case_decide; [discriminate |]. reflexivity.
    + rewrite merge_update_lookup. case_decide; [discriminate |]. reflexivity.
    + rewrite merge_update_lookup. case_decide; [discriminate |]. reflexivity.
  - repeat split.
Qed.

Lemma edit_saves_trimmed_title_witness :
  plain_segment "todo-1" = true
  /\ kv world1 !! "todo-1" = Some (JObj milk)
  /\ trim " Buy oat milk " <> EmptyString
  /\ exists r,
       kv (run world1 [StartEdit "todo-1" "Buy milk";
                       TypeEdit " Buy oat milk "; SaveEdit env2])
         !! "todo-1" = Some (JObj r)
       /\ r !! "title" = Some (JStr "Buy oat milk").
Proof.
  assert (Hplain : plain_segment "todo-1" = true) by reflexivity.
  assert (Hfull : trim " Buy oat milk " <> EmptyString)
    by (vm_compute; discriminate).
  split; [exact Hplain |]. split; [reflexivity |]. split; [exact Hfull |].
  destruct (proj1 (proj2 (edit_saves_trimmed_title world1 "todo-1"
                            "Buy milk" " Buy oat milk " env2 milk Hplain
                            eq_refl)) Hfull)
    as (r & Hr & Htitle & _).
  exists r. split; [exact Hr | exact Htitle].
Defined.

(** ** The tabs and their counts *)

Section FilterFacts.
Import Filters.

Lemma filter_partition {A} (f : A -> bool) (l : list A) :
  (List.filter f l ++ List.filter (fun x => negb (f x)) l)%list ≡ₚ l.
Proof.
  induction l as [| x l IH]; [reflexivity |]. simpl.
  destruct (f x); simpl.
  - constructor. exact IH.
  - rewrite <- Permutation_middle. constructor. exact IH.
Qed.

Lemma currentCounts_perm (l l' : list json) :
  l ≡ₚ l' -> currentCounts l = currentCounts l'.
Proof.
  intros Hp. unfold currentCounts.
  rewrite (Permutation_length Hp).
  rewrite (Permutation_length (list_filter_perm _ _ _ Hp)).
  rewrite (Permutation_length
             (list_filter_perm (fun t => is_completed t) _ _ Hp)).
  reflexivity.
Qed.

(** Whatever order the sort gives the list, the tabs add up: the count of
    All is the count of Active plus the count of Completed and is the total
    of the header, the count of Completed is the completed count of the
    header, the list shown has the length its tab announces, and the two
    filtered lists together hold every todo once. *)
Theorem tab_counts_add_up (todos sortedTodos : list json) (filter : Filter) :
  sortedTodos ≡ₚ todos ->
  let c := currentCounts sortedTodos in
  all c = (active c + completed c)%nat
  /\ all c = totalCount todos
  /\ completed c = completedCount todos
  /\ length (filteredTodos filter sortedTodos)
     = match filter with
       | All => all c
       | Active => active c
       | Completed => completed c
       end
  /\ (filteredTodos Completed sortedTodos ++ filteredTodos Active sortedTodos)%list
     ≡ₚ todos.
Proof.
  intros Hp c. subst c.
  pose proof (filter_partition (fun t => is_completed t) sortedTodos) as Hpart.
  split; [| split; [| split; [| split]]].
  - simpl. rewrite <- (Permutation_length Hpart), length_app. lia.
  - simpl. apply Permutation_length. exact Hp.
  - simpl. unfold completedCount. apply Permutation_length.
    apply list_filter_perm. exact Hp.
  - destruct filter; reflexivity.
  - simpl. rewrite Hpart. exact Hp.
Qed.

Lemma tab_counts_add_up_witness :
  [JObj milk; JObj (<["completed" := JBool true]> milk)]
    ≡ₚ [JObj (<["completed" := JBool true]> milk); JObj milk]
  /\ all (currentCounts [JObj milk; JObj (<["completed" := JBool true]> milk)])
     = totalCount [JObj (<["completed" := JBool true]> milk); JObj milk]
  /\ completed
       (currentCounts [JObj milk; JObj (<["completed" := JBool true]> milk)])
     = 1%nat.
Proof.
  assert (Hp : [JObj milk; JObj (<["completed" := JBool true]> milk)]
                 ≡ₚ [JObj (<["completed" := JBool true]> milk); JObj milk])
    by apply perm_swap.
  split; [exact Hp |].
  destruct (tab_counts_add_up _ _ All Hp) as (_ & Hall & Hdone & _).
  split; [exact Hall |]. rewrite Hdone. reflexivity.
Defined.

(** A todo that is added not completed to a list that was not empty
    highlights the Active tab when the Completed tab is selected, and no tab
    otherwise; added to an empty list it highlights nothing. *)
Theorem new_todo_highlights_active (todos before after : list json)
    (data : json) (filter : Filter) :
  is_completed data = false ->
  before ≡ₚ todos ->
  after ≡ₚ (todos ++ [data])%list ->
  highlighted filter (currentCounts before) (currentCounts after)
  = match filter, todos with
    | Completed, _ :: _ => Some Active
    | _, _ => None
    end.
Proof.
  intros Hdata Hb Ha.
  rewrite (currentCounts_perm _ _ Hb), (currentCounts_perm _ _ Ha).
  unfold highlighted, currentCounts. cbn [all active completed].
  rewrite !List.filter_app, !length_app. cbn [List.filter]. rewrite Hdata.
  cbn [negb length].
  destruct todos as [| t todos]; [destruct filter; reflexivity |].
  cbn [length Nat.eqb]. destruct filter; [reflexivity | |].
  - replace (_ <? _)%nat with false; [reflexivity |].
    symmetry. apply Nat.ltb_ge. lia.
  - replace (_ <? _)%nat with true; [reflexivity |].
    symmetry. apply Nat.ltb_lt. lia.
Qed.

Lemma new_todo_highlights_active_witness :
  is_completed (JObj (new_record env1 "Walk dog")) = false
  /\ highlighted Completed (currentCounts [JObj milk])
       (currentCounts [JObj (new_record env1 "Walk dog"); JObj milk])
     = Some Active.
Proof.
  assert (Hd : is_completed (JObj (new_record env1 "Walk dog")) = false)
    by reflexivity.
  split; [exact Hd |].
  apply (new_todo_highlights_active [JObj milk] [JObj milk]
           [JObj (new_record env1 "Walk dog"); JObj milk]
           (JObj (new_record env1 "Walk dog")) Completed Hd).
  - reflexivity.
  - apply perm_swap.
Defined.

End FilterFacts.

(** ** The preferred locale of the loader *)

Section LocaleFacts.
Import Locale.
Variable toUpperCase : string -> string.

Lemma split_no_sep (sep : ascii) (s : string) :
  MockData.occurs sep s = false -> split sep s = [s].
Proof.
  induction s as [| c s IH]; [reflexivity |].
  cbn [MockData.occurs split]. intros H.
  apply orb_false_iff in H as [Hc Hs].
  rewrite Ascii.eqb_sym, Hc, (IH Hs). reflexivity.
Qed.

Lemma split_app (sep : ascii) (a b : string) :
  MockData.occurs sep a = false ->
  split sep (a ++ String sep b) = a :: split sep b.
Proof.
  induction a as [| c a IH].
  - intros _. change (split sep (String sep b) = EmptyString :: split sep b).
    cbn [split]. rewrite Ascii.eqb_refl. reflexivity.
  - cbn [MockData.occurs]. intros H. apply orb_false_iff in H as [Hc Ha].
    change (split sep (String c (a ++ String sep b))
            = String c a :: split sep b).
    cbn [split]. rewrite Ascii.eqb_sym, Hc, (IH Ha). reflexivity.
Qed.

Lemma first_entry (first rest : string) :
  MockData.occurs "," first = false ->
  hd EmptyString (split "," first) = first
  /\ hd EmptyString (split "," (first ++ "," ++ rest)) = first.
Proof.
  intros H. split.
  - rewrite (split_no_sep _ _ H). reflexivity.
  - change ("," ++ rest) with (String "," rest).
    rewrite (split_app _ _ _ H). reflexivity.
Qed.

Lemma header_not_empty (first rest : string) :
  first <> EmptyString ->
  String.eqb first EmptyString = false
  /\ String.eqb (first ++ "," ++ rest) EmptyString = false.
Proof.
  intros H. destruct first as [| c first]; [congruence |].
  split; reflexivity.
Qed.

(** The locale of the loader is read off the first entry of the
    Accept-Language header alone: when that entry, trimmed, is a language, a
    hyphen and a region that is not empty (whatever follows a second
    hyphen), the locale is that language, a hyphen and that region as they
    are written, and what follows the first comma has no effect. *)
Theorem preferred_locale_reads_first_tag (first rest l r : string)
    (more : option string) :
  MockData.occurs "," first = false ->
  MockData.occurs "-" l = false ->
  MockData.occurs "-" r = false ->
  r <> EmptyString ->
  trim first
  = l ++ "-" ++ r ++ match more with
                     | Some x => "-" ++ x
                     | None => EmptyString
                     end ->
  getPreferredLocale toUpperCase (Some first) = l ++ "-" ++ r
  /\ getPreferredLocale toUpperCase (Some (first ++ "," ++ rest))
     = l ++ "-" ++ r.
Proof.
  intros Hcomma Hl Hr Hne Htrim.
  assert (Hfirst : first <> EmptyString).
  { intros ->. destruct l; discriminate Htrim. }
  destruct (header_not_empty first rest Hfirst) as [He1 He2].
  destruct (first_entry first rest Hcomma) as [Hh1 Hh2].
  assert (Hsplit : exists tail,
             split "-" (trim first) = l :: r :: tail).
  { rewrite Htrim. change ("-" ++ ?x) with (String "-" x).
    rewrite (split_app _ _ _ Hl). destruct more as [x |].
    - change ("-" ++ x) with (String "-" x).
      rewrite (split_app _ _ _ Hr). eauto.
    - rewrite append_empty_r, (split_no_sep _ _ Hr). eauto. }
  destruct Hsplit as [tail Hsplit].
  assert (Hreg : String.eqb r EmptyString = false).
  { destruct r; [congruence | reflexivity]. }
  unfold getPreferredLocale. rewrite He1, He2, Hh1, Hh2, Hsplit.
  cbn [hd lookup list_lookup]. rewrite Hreg. split; reflexivity.
Qed.

(** A first entry that names a language alone, with or without a hyphen
    after it, gets the language in upper case for its region; a header that
    is absent or empty gives en-US. *)
Theorem preferred_locale_defaults_region (first rest l : string) :
  MockData.occurs "," first = false ->
  MockData.occurs "-" l = false ->
  first <> EmptyString ->
  trim first = l \/ trim first = l ++ "-" ->
  getPreferredLocale toUpperCase (Some first) = l ++ "-" ++ toUpperCase l
  /\ getPreferredLocale toUpperCase (Some (first ++ "," ++ rest))
     = l ++ "-" ++ toUpperCase l
  /\ getPreferredLocale toUpperCase None = "en-US"
  /\ getPreferredLocale toUpperCase (Some EmptyString) = "en-US".
Proof.
  intros Hcomma Hl Hfirst Htrim.
  destruct (header_not_empty first rest Hfirst) as [He1 He2].
  destruct (first_entry first rest Hcomma) as [Hh1 Hh2].
  assert (Hsplit : split "-" (trim first) = [l]
                   \/ split "-" (trim first) = [l; EmptyString]).
  { destruct Htrim as [-> | ->].
    - left. apply split_no_sep. exact Hl.
    - right. change (l ++ "-") with (l ++ String "-" EmptyString).
      rewrite (split_app _ _ _ Hl). reflexivity. }
  unfold getPreferredLocale. rewrite He1, He2, Hh1, Hh2.
  destruct Hsplit as [-> | ->]; repeat split; reflexivity.
Qed.

End LocaleFacts.

Lemma preferred_locale_reads_first_tag_witness :
  Locale.getPreferredLocale upper_letters
    (Some (" de-ch-1996 ;q=1" ++ "," ++ "en;q=0.5"))
  = "de" ++ "-" ++ "ch".
Proof.
  refine (proj2 (preferred_locale_reads_first_tag upper_letters
                   " de-ch" "en;q=0.5" "de" "ch" None _ _ _ _ _));
    try reflexivity.
  discriminate.
Defined.

Lemma preferred_locale_defaults_region_witness :
  Locale.getPreferredLocale upper_letters (Some ("fr" ++ "," ++ "en;q=0.5"))
  = "fr" ++ "-" ++ upper_letters "fr".
Proof.
  refine (proj1 (proj2 (preferred_locale_defaults_region upper_letters
                          "fr" "en;q=0.5" "fr" _ _ _ _)));
    try reflexivity.
  - discriminate.
  - left. reflexivity.
Defined.

(** ** The countdown of a toast *)

Section TimerFacts.
Import ToastTimer.

Lemma ceil_seconds_bounds (d : Z) :
  1000 * (ceil_seconds d - 1) < d <= 1000 * ceil_seconds d.
Proof.
  unfold ceil_seconds.
  pose proof (Z.div_mod (- d) 1000 ltac:(lia)) as Hdm.
  pose proof (Z.mod_pos_bound (- d) 1000 ltac:(lia)) as Hb.
  lia.
Qed.

Lemma ticks_from (n : nat) (t : Z) :
  0 <= t -> Nat.iter n tick t = Z.max 0 (t - Z.of_nat n).
Proof.
  intros Ht. induction n as [| n IH].
  - simpl. lia.
  - rewrite Nat.iter_succ, IH. unfold tick.
    destruct (Z.leb_spec (Z.max 0 (t - Z.of_nat n)) 1); lia.
Qed.

Lemma tick_not_negative (t : Z) : 0 <= tick t.
Proof. unfold tick. destruct (Z.leb_spec t 1); lia. Qed.

(** A toast with a positive duration of [d] milliseconds starts its
    countdown at the seconds of [d] rounded up and loses one second a tick
    until it is at 0, which it reaches at that number of ticks and not
    before; from then on it stays at 0. *)
Theorem countdown_reaches_zero (d : Z) (n : nat) :
  0 < d ->
  timeLeft n (Some d) = Z.max 0 (ceil_seconds d - Z.of_nat n)
  /\ 1000 * (ceil_seconds d - 1) < d <= 1000 * ceil_seconds d
  /\ (timeLeft n (Some d) = 0 <-> d <= 1000 * Z.of_nat n).
Proof.
  intros Hd. pose proof (ceil_seconds_bounds d) as Hb.
  assert (Hleft : timeLeft n (Some d)
                  = Z.max 0 (ceil_seconds d - Z.of_nat n)).
  { unfold timeLeft, initialTimeLeft.
    destruct (Z.eqb_spec d 0) as [-> | _]; [lia |].
    apply ticks_from. lia. }
  split; [exact Hleft |]. split; [exact Hb |].
  rewrite Hleft. split; intros H; lia.
Qed.

Lemma countdown_reaches_zero_witness :
  timeLeft 4 (Some 4500) = 1 /\ timeLeft 5 (Some 4500) = 0.
Proof.
  destruct (countdown_reaches_zero 4500 4 ltac:(lia)) as (H4 & _ & _).
  destruct (countdown_reaches_zero 4500 5 ltac:(lia)) as (_ & _ & H5).
  split; [rewrite H4; reflexivity | apply H5; lia].
Defined.

(** Whatever the duration, also a negative one, the countdown is never
    below 0 once the interval has ticked. *)
Theorem countdown_not_negative_after_tick (duration : option Z) (n : nat) :
  (1 <= n)%nat -> 0 <= timeLeft n duration.
Proof.
  intros Hn. destruct n as [| n]; [lia |].
  unfold timeLeft. rewrite Nat.iter_succ. apply tick_not_negative.
Qed.

Lemma countdown_not_negative_after_tick_witness :
  timeLeft 0 (Some (-2500)) = -2 /\ 0 <= timeLeft 1 (Some (-2500)).
Proof.
  split; [reflexivity |].
  apply (countdown_not_negative_after_tick (Some (-2500)) 1). lia.
Defined.

End TimerFacts.

(** ** The theme switch *)

Section ThemeFacts.
Import Theme.

Lemma toggle_in_step (st : State) : in_step (toggleTheme st).
Proof.
  unfold in_step, toggleTheme. cbn [theme appearance saved].
  repeat split. destruct (String.eqb (theme st) "dark"); auto.
Qed.

(** After mounting, the switch and the layout show the same theme whatever
    the storage held; after any toggle they show the same theme, it is the
    stored one, and it is light or dark; from then on two toggles give back
    the state. *)
Theorem theme_stays_in_step (stored : option string) (n : nat) :
  let mounted := mount (initial stored) in
  let st := Nat.iter (S n) toggleTheme mounted in
  theme mounted = appearance mounted
  /\ theme st = appearance st
  /\ saved st = Some (theme st)
  /\ (theme st = "light" \/ theme st = "dark")
  /\ toggleTheme (toggleTheme st) = st.
Proof.
  intros mounted st.
  assert (Hst : in_step st).
  { subst st. rewrite Nat.iter_succ. apply toggle_in_step. }
  destruct Hst as (Ha & Hs & Ht).
  split.
  { subst mounted. unfold mount, initial. cbn [saved].
    destruct stored as [s |]; [| reflexivity].
    destruct (String.eqb s EmptyString); reflexivity. }
  split; [exact Ha |]. split; [exact Hs |]. split; [exact Ht |].
  destruct st as [t a s]. cbn [theme appearance saved] in *. subst a s.
  destruct Ht as [-> | ->]; reflexivity.
Qed.

(** A stored theme that is neither light nor dark is shown as it is until
    the first toggle, which gives dark. *)
Theorem unknown_theme_toggles_to_dark (savedTheme : string) :
  savedTheme <> EmptyString -> savedTheme <> "dark" ->
  theme (mount (initial (Some savedTheme))) = savedTheme
  /\ theme (toggleTheme (mount (initial (Some savedTheme)))) = "dark".
Proof.
  intros Hne Hnd. unfold mount, initial. cbn [saved].
  apply String.eqb_neq in Hne, Hnd. rewrite Hne.
  unfold toggleTheme. cbn [theme]. rewrite Hnd. split; reflexivity.
Qed.

Lemma unknown_theme_toggles_to_dark_witness :
  theme (mount (initial (Some "light"))) = "light"
  /\ theme (toggleTheme (mount (initial (Some "light")))) = "dark".
Proof. apply (unknown_theme_toggles_to_dark "light"); discriminate. Defined.

End ThemeFacts.

(** ** The queue of toasts *)

Lemma removeToast_fresh (i : string) (prev : list Toast.ToastMessage) :
  Forall (fun t => Toast.id t <> i) prev -> Toast.removeToast i prev = prev.
Proof.
  intros H. unfold Toast.removeToast. induction H as [| t prev Ht _ IH].
  - reflexivity.
  - cbn [List.filter]. apply String.eqb_neq in Ht. rewrite Ht.
    cbn [negb]. rewrite IH. reflexivity.
Qed.

(** Removing the toast that was just added gives back the queue as it was,
    when no toast of the queue had its id; in any case no toast with that id
    is left and the toasts with another id are kept in their order. *)
Theorem removeToast_undoes_addToast (now rnd : Z) (toast : Toast.ToastInit)
    (prev : list Toast.ToastMessage) :
  let i := Toast.id_or (Toast.init_id toast) (Toast.generated_id now rnd) in
  Forall (fun t => Toast.id t <> i) prev ->
  Toast.removeToast i (Toast.addToast now rnd toast prev) = prev
  /\ Toast.removeToastById i (Toast.addToast now rnd toast prev) = prev
  /\ forall j queue,
       Forall (fun t => Toast.id t <> j) (Toast.removeToast j queue)
       /\ Toast.removeToast j (Toast.removeToast j queue) = Toast.removeToast j queue
       /\ forall k, k <> j ->
            Toast.removeToast k (Toast.removeToast j queue)
            = Toast.removeToast j (Toast.removeToast k queue).
Proof.
  intros i Hfresh.
  assert (Hrm : Toast.removeToast i (Toast.addToast now rnd toast prev) = prev).
  { unfold Toast.addToast, Toast.removeToast. rewrite List.filter_app.
    cbn [List.filter Toast.id]. fold i. rewrite String.eqb_refl.
    cbn [negb]. rewrite app_nil_r. apply removeToast_fresh. exact Hfresh. }
  split; [exact Hrm |]. split; [exact Hrm |].
  intros j queue.
  assert (Hgone : Forall (fun t => Toast.id t <> j) (Toast.removeToast j queue)).
  { unfold Toast.removeToast. apply List.Forall_forall. intros t Ht.
    apply List.filter_In in Ht as [_ Ht].
    apply negb_true_iff, String.eqb_neq in Ht. exact Ht. }
  split; [exact Hgone |]. split.
  - apply removeToast_fresh. exact Hgone.
  - intros k _. unfold Toast.removeToast. apply filter_commute.
Qed.

Lemma removeToast_undoes_addToast_witness :
  Toast.removeToast "toast-1700000000000-42"
    (Toast.addToast 1700000000000 42
       (Toast.mkInit None "Saved" None None None None)
       [delete_toast "t1" env1])
  = [delete_toast "t1" env1].
Proof.
  refine (proj1 (removeToast_undoes_addToast 1700000000000 42
                   (Toast.mkInit None "Saved" None None None None)
                   [delete_toast "t1" env1] _)).
  repeat constructor. discriminate.
Defined.
